(** * PhishGuard: a shallow embedding of the scoring engine

  The development follows the two scripts of the extension that carry the
  scoring logic:

  - the background script ([analyzeUrl], [checkBrowserHistory],
    [analyzeUrlWithHistory]), module [Background];
  - the content script ([analyzePageContent]), module [Content], with
    [scanForSensitiveFormFields] in [ContentForms] and the warning banner
    in [ContentBanner];
  - the navigation listener of the background script ([BackgroundEvents])
    and the display of the popup ([Popup]).

  JavaScript strings are modelled as [string] (sequences of 8-bit code
  units; host names and paths produced by the URL constructor are ASCII),
  integer-valued numbers as [Z], arrays of strings that are pushed to as
  cells of a store, and the platform's [URL] constructor as a parameter of
  the development (class [Platform]). *)

From Stdlib Require Import ZArith Lia Bool Ascii String List.
From stdpp Require Import list strings pretty gmap.
Import ListNotations.

Local Open Scope Z_scope.

(** ** JavaScript string primitives *)

Module JsString.

(** The double-quote character, for template literals that embed one. *)
Definition dquote : string := String "034"%char EmptyString.

(** [s.startsWith(t)] *)
Fixpoint startsWith (s t : string) {struct t} : bool :=
  match t, s with
  | EmptyString, _ => true
  | String b t', String a s' => Ascii.eqb a b && startsWith s' t'
  | String _ _, EmptyString => false
  end.

(** [s.includes(t)] *)
Fixpoint includes (s t : string) : bool :=
  startsWith s t ||
  match s with
  | EmptyString => false
  | String _ s' => includes s' t
  end.

(** [s.endsWith(t)] *)
Fixpoint endsWith (s t : string) : bool :=
  String.eqb s t ||
  match s with
  | EmptyString => false
  | String _ s' => endsWith s' t
  end.

(** [s.split(c)] for a one-character separator: never the empty list. *)
Fixpoint split (c : ascii) (s : string) : list string :=
  match s with
  | EmptyString => [EmptyString]
  | String a s' =>
      if Ascii.eqb a c then EmptyString :: split c s'
      else match split c s' with
           | x :: r => String a x :: r
           | [] => [String a EmptyString]
           end
  end.

(** [arr.pop()] on the array returned by [split]: its last element. *)
Definition pop (l : list string) : string := List.last l EmptyString.

Definition lower_ascii (a : ascii) : ascii :=
  let n := nat_of_ascii a in
  if (Nat.leb 65 n && Nat.leb n 90)%bool then ascii_of_nat (n + 32) else a.

(** [s.toLowerCase()] on ASCII text. *)
Fixpoint toLowerCase (s : string) : string :=
  match s with
  | EmptyString => EmptyString
  | String a s' => String (lower_ascii a) (toLowerCase s')
  end.

(** [(s.match(/c/g) || []).length]: the number of occurrences of [c]. *)
Fixpoint count_matches (c : ascii) (s : string) : nat :=
  match s with
  | EmptyString => O
  | String a s' => ((if Ascii.eqb a c then 1 else 0) + count_matches c s')%nat
  end.

Fixpoint drop (n : nat) (s : string) : string :=
  match n, s with
  | O, _ => s
  | S n', String _ s' => drop n' s'
  | S _, EmptyString => EmptyString
  end.

(** [s.replace(pat, rep)] with a string pattern: only the first
    occurrence of [pat] is replaced. *)
Fixpoint replace (s pat rep : string) : string :=
  if startsWith s pat then rep +:+ drop (String.length pat) s
  else match s with
       | EmptyString => EmptyString
       | String a s' => String a (replace s' pat rep)
       end.

(** [arr.join(sep)] *)
Definition join (sep : string) (l : list string) : string :=
  String.concat sep l.

(** Removing every space, which is what a space-stripped name is. *)
Fixpoint strip_spaces (s : string) : string :=
  match s with
  | EmptyString => EmptyString
  | String a s' =>
      if Ascii.eqb a " "%char then strip_spaces s'
      else String a (strip_spaces s')
  end.

(** Every character of [s] satisfies [p]. *)
Fixpoint all_chars (p : ascii -> bool) (s : string) : bool :=
  match s with
  | EmptyString => true
  | String a s' => p a && all_chars p s'
  end.

End JsString.

(** ** Regular expressions

  The regular-expression literals of the source use only character
  classes, concatenation, bounded and unbounded repetition and the two
  anchors, for which [RegExp.prototype.test] is language membership.  The
  matcher works by derivatives. *)

Module Regex.

Inductive regex : Type :=
| Void
| Eps
| Class (p : ascii -> bool)
| Cat (r s : regex)
| Alt (r s : regex)
| Star (r : regex).

(** Denotation: the strings a regular expression matches as a whole. *)
Inductive Matches : regex -> string -> Prop :=
| MEps : Matches Eps EmptyString
| MClass p a : p a = true -> Matches (Class p) (String a EmptyString)
| MCat r s u v : Matches r u -> Matches s v -> Matches (Cat r s) (u +:+ v)
| MAltL r s u : Matches r u -> Matches (Alt r s) u
| MAltR r s u : Matches s u -> Matches (Alt r s) u
| MStar0 r : Matches (Star r) EmptyString
| MStarS r u v : Matches r u -> Matches (Star r) v -> Matches (Star r) (u +:+ v).

Fixpoint nullable (r : regex) : bool :=
  match r with
  | Void => false
  | Eps => true
  | Class _ => false
  | Cat r s => nullable r && nullable s
  | Alt r s => nullable r || nullable s
  | Star _ => true
  end.

Definition cat (r s : regex) : regex :=
  match r, s with
  | Void, _ => Void
  | _, Void => Void
  | Eps, _ => s
  | _, _ => Cat r s
  end.

Definition alt (r s : regex) : regex :=
  match r, s with
  | Void, _ => s
  | _, Void => r
  | _, _ => Alt r s
  end.

Fixpoint deriv (a : ascii) (r : regex) : regex :=
  match r with
  | Void => Void
  | Eps => Void
  | Class p => if p a then Eps else Void
  | Cat r s =>
      if nullable r then alt (cat (deriv a r) s) (deriv a s)
      else cat (deriv a r) s
  | Alt r s => alt (deriv a r) (deriv a s)
  | Star r => cat (deriv a r) (Star r)
  end.

Fixpoint matchesb (r : regex) (w : string) : bool :=
  match w with
  | EmptyString => nullable r
  | String a w' => matchesb (deriv a r) w'
  end.

(** Surface syntax. *)
Definition chr (c : ascii) : regex := Class (Ascii.eqb c).
Definition any : regex := Class (fun _ => true).

Fixpoint lit (s : string) : regex :=
  match s with
  | EmptyString => Eps
  | String a s' => Cat (chr a) (lit s')
  end.

(** [r{n}] *)
Fixpoint rep (n : nat) (r : regex) : regex :=
  match n with
  | O => Eps
  | S n' => Cat r (rep n' r)
  end.

(** [r{0,n}] *)
Fixpoint upto (n : nat) (r : regex) : regex :=
  match n with
  | O => Eps
  | S n' => Alt Eps (Cat r (upto n' r))
  end.

(** [r{m,}] and [r{m,n}] *)
Definition at_least (m : nat) (r : regex) : regex := Cat (rep m r) (Star r).
Definition between (m n : nat) (r : regex) : regex := Cat (rep m r) (upto (n - m) r).

(** A pattern without anchors matches anywhere in the subject; a pattern
    written [^...$] matches the whole subject. *)
Definition unanchored (r : regex) : regex := Cat (Star any) (Cat r (Star any)).
Definition anchored (r : regex) : regex := r.

Definition is_digit (a : ascii) : bool :=
  let n := nat_of_ascii a in (Nat.leb 48 n && Nat.leb n 57)%bool.
Definition is_alnum (a : ascii) : bool :=
  let n := nat_of_ascii a in
  ((Nat.leb 97 n && Nat.leb n 122) || (Nat.leb 65 n && Nat.leb n 90)
   || (Nat.leb 48 n && Nat.leb n 57))%bool.

(** [\d] and [[a-zA-Z0-9]] *)
Definition digit : regex := Class is_digit.
Definition alnum : regex := Class is_alnum.

(** A regular-expression object: its source text and its language.
    [`${p}`] is [toString p]. *)
Record RegExp : Type := mkRegExp { source : string; lang : regex }.

Definition test (p : RegExp) (s : string) : bool := matchesb (lang p) s.
Definition toString (p : RegExp) : string := "/" +:+ source p +:+ "/".

End Regex.


(** ** The background script *)

Module Background.
Import JsString Regex.

(** *** Platform

  [new URL(s)] either throws or yields an object of which the script reads
  [hostname] and [pathname]. *)

Record URL : Type := mkURL { hostname : string; pathname : string }.

Class Platform : Type := { URL_new : string -> option URL }.

(** *** Signal catalog *)

Inductive RiskLevel : Type := SAFE | LOW | MEDIUM | HIGH.

Module RISK_THRESHOLDS.
Definition LOW : Z := 30.
Definition MEDIUM : Z := 60.
Definition HIGH : Z := 80.
End RISK_THRESHOLDS.

Definition SUSPICIOUS_TLDS : list string :=
  ["xyz"; "top"; "tk"; "ml"; "ga"; "cf"; "gq"; "info"; "online"; "site"; "club"; "xin"].

Definition literal (s : string) : RegExp := mkRegExp s (unanchored (lit s)).

Definition SUSPICIOUS_PATTERNS : list RegExp :=
  [ literal "secure"; literal "login"; literal "signin"; literal "verify";
    literal "account"; literal "update"; literal "confirm"; literal "banking";
    literal "paypal"; literal "apple"; literal "microsoft"; literal "google";
    literal "facebook"; literal "amazon"; literal "netflix";
    mkRegExp "\d{5,}" (unanchored (at_least 5 digit));
    mkRegExp "^[a-zA-Z0-9]{25,}$" (anchored (at_least 25 alnum)) ].

Definition SECURITY_TERMS : list string :=
  ["secure"; "security"; "authenticate"; "verification"; "confirm"; "validate"; "wallet"].

(** [/^\d{1,3}\.\d{1,3}\.\d{1,3}\.\d{1,3}$/] *)
Definition ipRegex : RegExp :=
  mkRegExp "^\d{1,3}\.\d{1,3}\.\d{1,3}\.\d{1,3}$"
    (anchored
       (Cat (between 1 3 digit) (Cat (chr ".")
       (Cat (between 1 3 digit) (Cat (chr ".")
       (Cat (between 1 3 digit) (Cat (chr ".")
            (between 1 3 digit)))))))).

(** [arr.includes(x)] on an array of strings. *)
Definition array_includes (arr : list string) (x : string) : bool :=
  existsb (String.eqb x) arr.

(** *** Store, numbers and result objects *)

(** Arrays live in a store and are referred to by their index in it, so that
    two objects holding the same array see each other's pushes. *)
Abbreviation loc := nat (only parsing).
Abbreviation store := (list (list string)) (only parsing).

(** [arr.push(x)] *)
Definition array_push (a : loc) (x : string) (σ : store) : store :=
  alter (fun l => l ++ [x]) a σ.

(** A number that is an integer or [NaN] (the latter arises only from
    arithmetic on a missing field). *)
Inductive JsNumber : Type := Num (z : Z) | NaN.

Definition num_of_field (f : option Z) : JsNumber :=
  match f with Some z => Num z | None => NaN end.
Definition num_add (x y : JsNumber) : JsNumber :=
  match x, y with Num a, Num b => Num (a + b) | _, _ => NaN end.
Definition num_sub (x y : JsNumber) : JsNumber :=
  match x, y with Num a, Num b => Num (a - b) | _, _ => NaN end.
(** [Math.floor(x / k)] for a positive integer [k] *)
Definition num_floor_div (x : JsNumber) (k : Z) : JsNumber :=
  match x with Num a => Num (a / k) | NaN => NaN end.
Definition Math_max2 (x y : JsNumber) : JsNumber :=
  match x, y with Num a, Num b => Num (Z.max a b) | _, _ => NaN end.
Definition num_geb (x : JsNumber) (k : Z) : bool :=
  match x with Num a => k <=? a | NaN => false end.
Definition num_gtb (x : JsNumber) (k : Z) : bool :=
  match x with Num a => k <? a | NaN => false end.

Record FamiliaritySnapshot : Type := mkSnapshot {
  familiar : bool;
  firstVisit : bool;
  visitCount : Z;
  daysSinceLastVisit : option Z;
  familiarityScore : option Z;
  error : bool
}.

(** The object returned by [analyzeUrl] and, with [familiarity] added, by
    [analyzeUrlWithHistory].  The object spread copies the reference held
    in [issues], not the array. *)
Record Analysis : Type := mkAnalysis {
  score : JsNumber;
  issues : loc;
  riskLevel : RiskLevel;
  familiarity : option FamiliaritySnapshot
}.

Record HistoryItem : Type := mkHistoryItem { url : string; lastVisitTime : Z }.

(** *** Statements of [analyzeUrl]

  The assigned local [score] and the store are threaded through; a
  statement completes normally or throws, and what it did before throwing
  stays done. *)

Inductive completion (A : Type) : Type :=
| Normal (a : A)
| Throw.
Arguments Normal {A} a.
Arguments Throw {A}.

Definition M (A : Type) : Type := Z * store -> completion A * (Z * store).

#[global] Instance M_ret : MRet M := fun A a s => (Normal a, s).
#[global] Instance M_bind : MBind M := fun A B f m s =>
  match m s with
  | (Normal a, s') => f a s'
  | (Throw, s') => (Throw, s')
  end.

Definition add_score (k : Z) : M unit :=
  fun s => (Normal tt, (fst s + k, snd s)).
Definition push (a : loc) (x : string) : M unit :=
  fun s => (Normal tt, (fst s, array_push a x (snd s))).
Definition new_URL `{Platform} (u : string) : M URL :=
  fun s => match URL_new u with
           | Some o => (Normal o, s)
           | None => (Throw, s)
           end.
Definition when (b : bool) (m : M unit) : M unit :=
  if b then m else mret tt.
Fixpoint forEach {A : Type} (l : list A) (f : A -> M unit) : M unit :=
  match l with
  | [] => mret tt
  | x :: l' => f x ;; forEach l' f
  end.
Definition try_catch {A : Type} (m handler : M A) : M A :=
  fun s => match m s with
           | (Throw, s') => handler s'
           | r => r
           end.

(** The [try] block of [analyzeUrl]. *)
Definition analyzeUrl_try `{Platform} (url : string) (issues : loc) : M unit :=
  urlObj ← new_URL url;
  let domain := hostname urlObj in
  let path := pathname urlObj in
  when (test ipRegex domain)
    (add_score 40 ;; push issues "IP address used as hostname") ;;
  let tld := toLowerCase (pop (split "." domain)) in
  when (array_includes SUSPICIOUS_TLDS tld)
    (add_score 15 ;; push issues ("Suspicious TLD: ." +:+ tld)) ;;
  when (30 <? Z.of_nat (String.length domain))
    (add_score 15 ;; push issues "Unusually long domain name") ;;
  let subdomainCount := Z.of_nat (length (split "." domain)) - 2 in
  when (3 <? subdomainCount)
    (add_score 15 ;; push issues "Excessive number of subdomains") ;;
  when (1 <? Z.of_nat (count_matches "-" domain))
    (add_score 10 ;; push issues "Multiple hyphens in domain") ;;
  forEach SUSPICIOUS_PATTERNS (fun pattern =>
    when (test pattern domain || test pattern path)
      (add_score 10 ;;
       push issues ("Suspicious pattern detected: " +:+ toString pattern))) ;;
  forEach SECURITY_TERMS (fun term =>
    when (includes domain term)
      (add_score 5 ;;
       push issues ("Security term in domain: " +:+ dquote +:+ term +:+ dquote))) ;;
  when (includes url "%")
    (add_score 10 ;; push issues "URL contains encoded characters").

(** The [catch] block of [analyzeUrl]. *)
Definition analyzeUrl_catch (issues : loc) : M unit :=
  add_score 20 ;; push issues "Malformed URL".

Definition analyzeUrl `{Platform} (url : string) (σ : store)
  : completion Analysis * store :=
  let issues : loc := length σ in
  match try_catch (analyzeUrl_try url issues) (analyzeUrl_catch issues)
          (0, σ ++ [[]]) with
  | (Normal _, (score, σ')) =>
      let riskLevel :=
        if RISK_THRESHOLDS.HIGH <=? score then HIGH
        else if RISK_THRESHOLDS.MEDIUM <=? score then MEDIUM
        else if RISK_THRESHOLDS.LOW <=? score then LOW
        else SAFE in
      (Normal {| score := Num score; issues := issues;
                 riskLevel := riskLevel; familiarity := None |}, σ')
  | (Throw, (_, σ')) => (Throw, σ')
  end.

(** *** [checkBrowserHistory]

  [search] is what [chrome.history.search] gave for the query ([None] when
  it rejected) and [now] the reading of [Date.now()] taken after it;
  timestamps are whole milliseconds. *)

Definition isMatch (itemDomain domain : string) : bool :=
  String.eqb itemDomain domain
  || endsWith itemDomain ("." +:+ domain)
  || endsWith domain ("." +:+ itemDomain).

(** [Math.max(...l)] on a non-empty array of integers. *)
Definition Math_max (l : list Z) : Z :=
  match l with
  | [] => 0
  | x :: r => fold_left Z.max r x
  end.

Definition lookup_failed : FamiliaritySnapshot :=
  {| familiar := false; firstVisit := true; visitCount := 0;
     daysSinceLastVisit := None; familiarityScore := None; error := true |}.

Definition checkBrowserHistory `{Platform} (u : string)
    (search : option (list HistoryItem)) (now : Z) : FamiliaritySnapshot :=
  match URL_new u with
  | None => lookup_failed
  | Some urlObj =>
    let domain := hostname urlObj in
    match search with
    | None => lookup_failed
    | Some historyItems =>
      let exactDomainMatches :=
        List.filter (fun item =>
          match URL_new (url item) with
          | Some itemObj => isMatch (hostname itemObj) domain
          | None => false
          end) historyItems in
      if Nat.eqb (length exactDomainMatches) 0 then
        {| familiar := false; firstVisit := true; visitCount := 0;
           daysSinceLastVisit := Some 0; familiarityScore := Some 0;
           error := false |}
      else
        let visits := map lastVisitTime exactDomainMatches in
        let mostRecentVisit := Math_max visits in
        let daysSinceLastVisit :=
          (now - mostRecentVisit) / (24 * 60 * 60 * 1000) in
        let familiarityScore := 0 in
        let visitCount := Z.min (Z.of_nat (length exactDomainMatches)) 20 in
        let familiarityScore := familiarityScore + visitCount * 2 in
        let recencyScore :=
          if daysSinceLastVisit =? 0 then 60
          else Z.max (60 - daysSinceLastVisit * 2) 0 in
        let familiarityScore := familiarityScore + recencyScore in
        {| familiar := true; firstVisit := false;
           visitCount := Z.of_nat (length exactDomainMatches);
           daysSinceLastVisit := Some daysSinceLastVisit;
           familiarityScore := Some familiarityScore;
           error := false |}
    end
  end.

(** *** [analyzeUrlWithHistory]

  [aggregateRisk] is the part of [analyzeUrlWithHistory] that follows the
  two calls: the adjustment of the score, the risk level and the object
  that is returned. *)

Definition aggregateRisk (baseAnalysis : Analysis)
    (familiarity : FamiliaritySnapshot) (σ : store) : Analysis * store :=
  let adjustedScore := score baseAnalysis in
  let '(adjustedScore, σ) :=
    if firstVisit familiarity then
      (num_add adjustedScore (Num 90),
       array_push (issues baseAnalysis) "First visit to this domain" σ)
    else
      let reduction :=
        num_floor_div (num_of_field (familiarityScore familiarity)) 4 in
      (Math_max2 (num_sub adjustedScore reduction) (Num 0),
       if num_gtb (num_of_field (familiarityScore familiarity)) 70 then
         array_push (issues baseAnalysis)
           ("Frequently visited site (" +:+ pretty (visitCount familiarity)
            +:+ " visits)") σ
       else σ) in
  let riskLevel :=
    if num_geb adjustedScore RISK_THRESHOLDS.HIGH then HIGH
    else if num_geb adjustedScore RISK_THRESHOLDS.MEDIUM then MEDIUM
    else if num_geb adjustedScore RISK_THRESHOLDS.LOW then LOW
    else SAFE in
  ({| score := adjustedScore; issues := issues baseAnalysis;
      riskLevel := riskLevel; familiarity := Some familiarity |}, σ).

Definition analyzeUrlWithHistory `{Platform} (url : string)
    (search : option (list HistoryItem)) (now : Z) (σ : store)
  : completion Analysis * store :=
  match analyzeUrl url σ with
  | (Normal baseAnalysis, σ1) =>
      let familiarity := checkBrowserHistory url search now in
      let '(result, σ2) := aggregateRisk baseAnalysis familiarity σ1 in
      (Normal result, σ2)
  | (Throw, σ1) => (Throw, σ1)
  end.

(** A URL constructor for the plain shape [scheme://host] or
    [scheme://host/path], which is enough to run the analysis on examples;
    anything else is rejected. *)
Fixpoint scheme_rest (s : string) : option (string * string) :=
  match s with
  | EmptyString => None
  | String a s' =>
      if startsWith s "://" then Some (EmptyString, drop 3 s)
      else match scheme_rest s' with
           | Some (sch, r) => Some (String a sch, r)
           | None => None
           end
  end.

Fixpoint host_path (s : string) : string * string :=
  match s with
  | EmptyString => (EmptyString, "/")
  | String a s' =>
      if Ascii.eqb a "/" then (EmptyString, s)
      else let '(h, p) := host_path s' in (String a h, p)
  end.

Definition plain_URL (s : string) : option URL :=
  match scheme_rest s with
  | Some (sch, r) =>
      let '(h, p) := host_path r in
      if negb (String.eqb sch EmptyString) && all_chars is_alnum sch
         && negb (String.eqb h EmptyString)
         && all_chars (fun a => is_alnum a || Ascii.eqb a "." || Ascii.eqb a "-") h
         && all_chars (fun a => is_alnum a || Ascii.eqb a "/" || Ascii.eqb a "-"
                                || Ascii.eqb a "." || Ascii.eqb a "_") p
      then Some (mkURL (toLowerCase h) p)
      else None
  | None => None
  end.

Definition plain_platform : Platform := {| URL_new := plain_URL |}.

End Background.


(** ** The content script *)

Module Content.
Import JsString.

(** What [analyzePageContent] reads from the page: the text of the body,
    the [alt] and [src] of every image in document order, and the host
    name of the location. *)
Record Image : Type := mkImage { alt : string; src : string }.

Record Page : Type := mkPage {
  innerText : string;
  images : list Image;
  hostname : string
}.

Record ContentAnalysis : Type := mkContentAnalysis {
  suspiciousText : bool;
  brandImpersonation : bool;
  poorSpellingGrammar : bool;
  urgencyLanguage : bool;
  issues : list string
}.

Definition urgencyPhrases : list string :=
  ["act now"; "urgent"; "immediately"; "alert"; "attention"; "important";
   "limited time"; "expire"; "suspended"; "verify now"; "verify your account";
   "unusual activity"; "suspicious activity"; "security alert"].

Definition commonBrands : list string :=
  ["paypal"; "apple"; "microsoft"; "google"; "facebook"; "amazon";
   "bank of america"; "chase"; "wells fargo"; "citi"; "netflix"].

Definition set_urgency (results : ContentAnalysis) (issue : string) : ContentAnalysis :=
  {| suspiciousText := suspiciousText results;
     brandImpersonation := brandImpersonation results;
     poorSpellingGrammar := poorSpellingGrammar results;
     urgencyLanguage := true;
     issues := issues results ++ [issue] |}.

Definition set_impersonation (results : ContentAnalysis) (issue : string) : ContentAnalysis :=
  {| suspiciousText := suspiciousText results;
     brandImpersonation := true;
     poorSpellingGrammar := poorSpellingGrammar results;
     urgencyLanguage := urgencyLanguage results;
     issues := issues results ++ [issue] |}.

(** The two nested [forEach] loops that fill [brandLogosFound]. *)
Definition collectBrands (imgs : list Image) : list string :=
  fold_left (fun brandLogosFound img =>
    let altText := toLowerCase (alt img) in
    let src := toLowerCase (src img) in
    fold_left (fun brandLogosFound brand =>
      if includes altText brand || includes src brand
      then brandLogosFound ++ [brand]
      else brandLogosFound) commonBrands brandLogosFound) imgs [].

(** The loop that sets [brandInDomain]. *)
Definition brandInDomain (domain : string) (brandLogosFound : list string) : bool :=
  fold_left (fun brandInDomain brand =>
    if includes domain (replace brand " " "") then true else brandInDomain)
    brandLogosFound false.

Definition analyzePageContent (page : Page) : ContentAnalysis :=
  let results :=
    {| suspiciousText := false; brandImpersonation := false;
       poorSpellingGrammar := false; urgencyLanguage := false; issues := [] |} in
  let pageText := toLowerCase (innerText page) in
  let results :=
    fold_left (fun results phrase =>
      if includes pageText phrase
      then set_urgency results
             ("Urgency language: " +:+ dquote +:+ phrase +:+ dquote)
      else results) urgencyPhrases results in
  let brandLogosFound := collectBrands (images page) in
  if (0 <? length brandLogosFound)%nat then
    let domain := toLowerCase (hostname page) in
    if negb (brandInDomain domain brandLogosFound) then
      set_impersonation results
        ("Potential impersonation of: " +:+ join ", " brandLogosFound)
    else results
  else results.

End Content.


(** ** Reference definitions the properties are stated against *)

Module Spec.
Import JsString Regex Background.

(** The risk-level mapping in the words of the specification: at least 80
    is HIGH, else at least 60 is MEDIUM, else at least 30 is LOW, else
    SAFE. *)
Definition riskLevel_spec (s : Z) : RiskLevel :=
  if 80 <=? s then HIGH
  else if 60 <=? s then MEDIUM
  else if 30 <=? s then LOW
  else SAFE.

(** The order SAFE < LOW < MEDIUM < HIGH. *)
Definition rank (l : RiskLevel) : Z :=
  match l with SAFE => 0 | LOW => 1 | MEDIUM => 2 | HIGH => 3 end.

(** One to three decimal digits. *)
Definition digits_1_3 (g : string) : Prop :=
  (1 <= String.length g <= 3)%nat /\ all_chars is_digit g = true.

(** The textual shape [d.d.d.d]. *)
Definition DottedQuad (h : string) : Prop :=
  exists a b c d,
    h = a +:+ "." +:+ b +:+ "." +:+ c +:+ "." +:+ d
    /\ digits_1_3 a /\ digits_1_3 b /\ digits_1_3 c /\ digits_1_3 d.

(** [t] is a suffix of [s] that starts right after a dot of [s]. *)
Definition dot_suffix (s t : string) : Prop :=
  exists p, s = p +:+ "." +:+ t.

(** A triggered indicator: its weight and the issue it reports. *)
Definition hit : Type := Z * string.

Definition total (hits : list hit) : Z :=
  fold_right Z.add 0 (map fst hits).

Definition hit_if (b : bool) (w : Z) (issue : string) : list hit :=
  if b then [(w, issue)] else [].

Definition pattern_hit (p : RegExp) : hit :=
  (10, "Suspicious pattern detected: " +:+ toString p).
Definition term_hit (t : string) : hit :=
  (5, "Security term in domain: " +:+ dquote +:+ t +:+ dquote).

Definition matched_patterns (u : URL) : list RegExp :=
  List.filter (fun p => test p (Background.hostname u) || test p (pathname u))
    SUSPICIOUS_PATTERNS.
Definition matched_terms (u : URL) : list string :=
  List.filter (fun t => includes (Background.hostname u) t) SECURITY_TERMS.

(** The indicators of [analyzeUrl] after the IP-address one, in the order
    of the source. *)
Definition other_hits (url : string) (u : URL) : list hit :=
  let domain := Background.hostname u in
  let tld := toLowerCase (pop (split "." domain)) in
  hit_if (array_includes SUSPICIOUS_TLDS tld) 15 ("Suspicious TLD: ." +:+ tld)
  ++ hit_if (30 <? Z.of_nat (String.length domain)) 15 "Unusually long domain name"
  ++ hit_if (3 <? Z.of_nat (length (split "." domain)) - 2) 15
       "Excessive number of subdomains"
  ++ hit_if (1 <? Z.of_nat (count_matches "-" domain)) 10
       "Multiple hyphens in domain"
  ++ map pattern_hit (matched_patterns u)
  ++ map term_hit (matched_terms u)
  ++ hit_if (includes url "%") 10 "URL contains encoded characters".

(** All the indicators a parsed URL triggers. *)
Definition url_hits (url : string) (u : URL) : list hit :=
  hit_if (test ipRegex (Background.hostname u)) 40 "IP address used as hostname"
  ++ other_hits url u.

(** Run with its local array at [issues], a statement [m] completes
    normally, adds the weights of [hits] to the score and appends their
    issues to the array, whatever the score and the array were before. *)
Definition Emits (issues : loc) (m : M unit) (hits : list hit) : Prop :=
  forall (sc : Z) (σ : store) (acc : list string),
    length σ = issues ->
    m (sc, σ ++ [acc])
    = (Normal tt, (sc + total hits, σ ++ [acc ++ map snd hits])).

(** The issue the familiarity adjustment reports for a snapshot, if any. *)
Definition familiarity_issue (fam : FamiliaritySnapshot) : list string :=
  if firstVisit fam then ["First visit to this domain"]
  else if num_gtb (num_of_field (familiarityScore fam)) 70 then
    ["Frequently visited site (" +:+ pretty (visitCount fam) +:+ " visits)"]
  else [].

(** The history items [checkBrowserHistory] keeps for a domain. *)
Definition matching `{Platform} (domain : string) (items : list HistoryItem)
  : list HistoryItem :=
  List.filter (fun item =>
    match URL_new (url item) with
    | Some itemObj => isMatch (Background.hostname itemObj) domain
    | None => false
    end) items.

(** The name of a brand with every space removed is part of the host. *)
Definition brand_in_host (host brand : string) : bool :=
  includes host (strip_spaces brand).

End Spec.

(** ** Further reference definitions *)

Module SpecPatterns.
Import JsString Regex Background Spec.

(** The two patterns of [SUSPICIOUS_PATTERNS] that are not plain words. *)
Definition digit_run_pattern : RegExp :=
  mkRegExp "\d{5,}" (unanchored (at_least 5 digit)).
Definition long_alnum_pattern : RegExp :=
  mkRegExp "^[a-zA-Z0-9]{25,}$" (anchored (at_least 25 alnum)).

(** The words of the other fifteen, in order. *)
Definition pattern_words : list string :=
  ["secure"; "login"; "signin"; "verify"; "account"; "update"; "confirm";
   "banking"; "paypal"; "apple"; "microsoft"; "google"; "facebook"; "amazon";
   "netflix"].

(** [s] holds [n] consecutive characters that satisfy [p]. *)
Definition has_run (p : ascii -> bool) (n : nat) (s : string) : Prop :=
  exists x m y, s = x +:+ m +:+ y /\ String.length m = n /\ all_chars p m = true.

(** No character of [s] is [c]. *)
Definition free_of (c : ascii) (s : string) : bool :=
  all_chars (fun a => negb (Ascii.eqb a c)) s.

(** The characters of a dotted quad. *)
Definition digit_or_dot (x : ascii) : bool := is_digit x || Ascii.eqb x ".".

End SpecPatterns.

(** ** The content script: forms *)

Module ContentForms.
Import JsString Background.

Definition SENSITIVE_FORM_FIELDS : list string :=
  ["password"; "pass"; "pwd"; "ssn"; "credit"; "card"; "cvv"; "pin"; "social"].

(** What [scanForSensitiveFormFields] reads: of every form its [action]
    and, of every input in it, [type], [name] and [id]; of the location its
    [protocol] and [hostname]. *)
Record Input : Type := mkInput {
  input_type : string;
  input_name : string;
  input_id : string
}.

Record Form : Type := mkForm { action : string; inputs : list Input }.

Record Location : Type := mkLocation {
  protocol : string;
  location_hostname : string
}.

Record FormAnalysis : Type := mkFormAnalysis {
  hasPasswordField : bool;
  hasSensitiveFields : bool;
  submitURL : option string;
  isSecure : bool;
  issues : list string
}.

Definition set_hasPasswordField (r : FormAnalysis) : FormAnalysis :=
  mkFormAnalysis true (hasSensitiveFields r) (submitURL r) (isSecure r) (issues r).
Definition set_hasSensitiveFields (r : FormAnalysis) : FormAnalysis :=
  mkFormAnalysis (hasPasswordField r) true (submitURL r) (isSecure r) (issues r).
Definition set_submitURL (r : FormAnalysis) (a : string) : FormAnalysis :=
  mkFormAnalysis (hasPasswordField r) (hasSensitiveFields r) (Some a) (isSecure r)
    (issues r).
Definition push_issue (r : FormAnalysis) (x : string) : FormAnalysis :=
  mkFormAnalysis (hasPasswordField r) (hasSensitiveFields r) (submitURL r)
    (isSecure r) (issues r ++ [x]).

(** The body of [inputs.forEach]. *)
Definition scan_input (results : FormAnalysis) (input : Input) : FormAnalysis :=
  let inputType := toLowerCase (input_type input) in
  let inputName := toLowerCase (input_name input) in
  let inputId := toLowerCase (input_id input) in
  let results :=
    if String.eqb inputType "password" then set_hasPasswordField results
    else results in
  fold_left (fun results term =>
    if includes inputName term || includes inputId term
    then set_hasSensitiveFields results
    else results) SENSITIVE_FORM_FIELDS results.

(** The body of [forms.forEach]; a non-empty [action] is a truthy one. *)
Definition scan_form `{Platform} (pageDomain : string) (results : FormAnalysis)
    (form : Form) : FormAnalysis :=
  let results :=
    if negb (String.eqb (action form) "") then
      let results := set_submitURL results (action form) in
      match URL_new (action form) with
      | Some formUrl =>
          let formDomain := hostname formUrl in
          if negb (String.eqb formDomain pageDomain) then
            push_issue results ("Form submits to different domain: " +:+ formDomain)
          else results
      | None => push_issue results "Form has invalid submission URL"
      end
    else results in
  fold_left scan_input (inputs form) results.

Definition scanForSensitiveFormFields `{Platform} (location : Location)
    (forms : list Form) : FormAnalysis :=
  let results :=
    {| hasPasswordField := false; hasSensitiveFields := false; submitURL := None;
       isSecure := String.eqb (protocol location) "https:"; issues := [] |} in
  let results := fold_left (scan_form (location_hostname location)) forms results in
  if hasPasswordField results && negb (isSecure results) then
    push_issue results "Password field on non-HTTPS connection"
  else results.

(** Reference: the issue one form gives rise to, if any. *)
Definition form_issue `{Platform} (pageDomain : string) (form : Form) : list string :=
  if String.eqb (action form) "" then []
  else match URL_new (action form) with
       | Some formUrl =>
           if String.eqb (hostname formUrl) pageDomain then []
           else ["Form submits to different domain: " +:+ hostname formUrl]
       | None => ["Form has invalid submission URL"]
       end.

Definition is_password (input : Input) : bool :=
  String.eqb (toLowerCase (input_type input)) "password".

Definition is_sensitive (input : Input) : bool :=
  existsb (fun term =>
    includes (toLowerCase (input_name input)) term
    || includes (toLowerCase (input_id input)) term) SENSITIVE_FORM_FIELDS.

Definition all_inputs (forms : list Form) : list Input := flat_map inputs forms.

(** The last truthy [action], if any. *)
Definition last_action (forms : list Form) : option string :=
  fold_left (fun acc form =>
    if String.eqb (action form) "" then acc else Some (action form)) forms None.

End ContentForms.

(** ** Reference definitions for the content analysis *)

Module ContentSpec.
Import JsString Content.

Definition urgency_issue (phrase : string) : string :=
  "Urgency language: " +:+ dquote +:+ phrase +:+ dquote.

(** The brands one image contributes, in the order of [commonBrands]. *)
Definition image_brands (img : Image) : list string :=
  List.filter (fun brand =>
    includes (toLowerCase (alt img)) brand || includes (toLowerCase (src img)) brand)
    commonBrands.

(** The page with everything the analysis reads put in lower case. *)
Definition lower_page (page : Page) : Page :=
  mkPage (toLowerCase (innerText page))
    (map (fun img => mkImage (toLowerCase (alt img)) (toLowerCase (src img)))
       (images page))
    (toLowerCase (hostname page)).

End ContentSpec.

(** ** Further definitions for the form scan *)

Module ContentFormsSpec.
Import JsString ContentForms.

(** [is_sensitive] with the fragment ["password"] left out of the list. *)
Definition is_sensitive_short (input : Input) : bool :=
  existsb (fun term =>
    includes (toLowerCase (input_name input)) term
    || includes (toLowerCase (input_id input)) term)
    ["pass"; "pwd"; "ssn"; "credit"; "card"; "cvv"; "pin"; "social"].

End ContentFormsSpec.

(** ** What the scripts send each other *)

Module Messaging.
Import JsString Background.

(** An analysis as it arrives in a message or in storage: the issues array
    is copied, a [NaN] score becomes [null] ([None]). *)
Record AnalysisData : Type := mkAnalysisData {
  data_score : option Z;
  data_issues : list string;
  data_riskLevel : RiskLevel;
  data_familiarity : option FamiliaritySnapshot
}.

Definition serialize (a : Analysis) (σ : store) : AnalysisData :=
  {| data_score := match score a with Num z => Some z | NaN => None end;
     data_issues := match σ !! issues a with Some l => l | None => [] end;
     data_riskLevel := riskLevel a;
     data_familiarity := familiarity a |}.

Record Message : Type := mkMessage { msg_action : string; msg_data : AnalysisData }.

(** The string a risk level is in the source, and [`${score}`]. *)
Definition level_name (l : RiskLevel) : string :=
  match l with SAFE => "SAFE" | LOW => "LOW" | MEDIUM => "MEDIUM" | HIGH => "HIGH" end.

Definition score_text (s : option Z) : string :=
  match s with Some z => pretty z | None => "null" end.

Definition RiskLevel_eqb (a b : RiskLevel) : bool :=
  match a, b with
  | SAFE, SAFE | LOW, LOW | MEDIUM, MEDIUM | HIGH, HIGH => true
  | _, _ => false
  end.

End Messaging.

(** ** The content script: the warning banner *)

Module ContentBanner.
Import JsString Background Messaging.

(** Of the banner element: its id, the two style properties that depend on
    the analysis, and the markup of its text. *)
Record Banner : Type := mkBanner {
  banner_id : string;
  backgroundColor : string;
  color : string;
  warningText_innerHTML : string
}.

(** The flag [warningDisplayed] and the banners among the children of the
    body, first child first. *)
Record PageState : Type := mkPageState {
  warningDisplayed : bool;
  body : list Banner
}.

Definition initial : PageState := mkPageState false [].

Definition nl : string := String "010"%char EmptyString.

Definition warning_markup (riskLevel : RiskLevel) (score : option Z) : string :=
  nl +:+ "    <strong>⚠️ PhishGuard Warning:</strong> " +:+ nl
  +:+ "    This site exhibits " +:+ toLowerCase (level_name riskLevel)
  +:+ " risk phishing characteristics." +:+ nl
  +:+ "    <span style=" +:+ dquote +:+ "margin-left: 8px; font-size: 12px;"
  +:+ dquote +:+ ">(Risk score: " +:+ score_text score +:+ ")</span>" +:+ nl
  +:+ "  ".

Definition injectWarningBanner (analysis : AnalysisData) (st : PageState) : PageState :=
  if warningDisplayed st then st
  else
    let riskLevel := data_riskLevel analysis in
    let score := data_score analysis in
    if negb (RiskLevel_eqb riskLevel MEDIUM) && negb (RiskLevel_eqb riskLevel HIGH)
    then st
    else
      let banner :=
        {| banner_id := "phishguard-warning";
           backgroundColor :=
             if RiskLevel_eqb riskLevel HIGH then "#ff3b30" else "#ff9500";
           color := "white";
           warningText_innerHTML := warning_markup riskLevel score |} in
      {| warningDisplayed := true; body := banner :: body st |}.

(** The listener for messages from the background script; the boolean says
    whether a response was sent. *)
Definition onMessage (message : Message) (st : PageState) : PageState * bool :=
  if String.eqb (msg_action message) "analysisResult" then
    let analysis := msg_data message in
    ((if RiskLevel_eqb (data_riskLevel analysis) MEDIUM
         || RiskLevel_eqb (data_riskLevel analysis) HIGH
      then injectWarningBanner analysis st
      else st),
     true)
  else (st, false).

(** The click listener of the close button of the [i]-th banner:
    [banner.remove()]. *)
Definition closeClicked (i : nat) (st : PageState) : PageState :=
  {| warningDisplayed := warningDisplayed st; body := delete i (body st) |}.

Inductive Event : Type :=
| Received (message : Message)
| CloseClicked (i : nat).

Definition step (st : PageState) (e : Event) : PageState :=
  match e with
  | Received message => (onMessage message st).1
  | CloseClicked i => closeClicked i st
  end.

Definition run (events : list Event) (st : PageState) : PageState :=
  fold_left step events st.

(** Reference: a message that asks for a warning, and the banner it gives. *)
Definition warns (message : Message) : bool :=
  String.eqb (msg_action message) "analysisResult"
  && (RiskLevel_eqb (data_riskLevel (msg_data message)) MEDIUM
      || RiskLevel_eqb (data_riskLevel (msg_data message)) HIGH).

Definition banner_of (analysis : AnalysisData) : Banner :=
  {| banner_id := "phishguard-warning";
     backgroundColor :=
       match data_riskLevel analysis with HIGH => "#ff3b30" | _ => "#ff9500" end;
     color := "white";
     warningText_innerHTML :=
       warning_markup (data_riskLevel analysis) (data_score analysis) |}.

(** What a banner of this script looks like. *)
Definition banner_ok (b : Banner) : Prop :=
  banner_id b = "phishguard-warning"
  /\ (backgroundColor b = "#ff3b30" \/ backgroundColor b = "#ff9500").

(** What every reachable state of the page satisfies. *)
Definition page_ok (st : PageState) : Prop :=
  (warningDisplayed st = false -> body st = [])
  /\ (length (body st) <= 1)%nat
  /\ Forall banner_ok (body st).

End ContentBanner.

(** ** The background script: navigation *)

Module BackgroundEvents.
Import JsString Background Messaging.

Record Details : Type := mkDetails {
  frameId : Z;
  tabId : Z;
  details_url : string
}.

Record StoredEntry : Type := mkStoredEntry {
  entry_analysis : AnalysisData;
  timestamp : Z
}.

(** After the listener: the store of arrays, [chrome.storage.local], and
    the message handed to [chrome.tabs.sendMessage] with its tab. *)
Record Outcome : Type := mkOutcome {
  out_store : list (list string);
  out_storage : gmap string StoredEntry;
  out_message : option (Z * Message)
}.

(** The listener of [chrome.webNavigation.onCompleted]; [stamp] is the
    reading of [Date.now()] for the stored entry. *)
Definition onCompleted `{Platform} (details : Details)
    (search : option (list HistoryItem)) (now stamp : Z)
    (σ : store) (storage : gmap string StoredEntry) : Outcome :=
  if negb (frameId details =? 0) then mkOutcome σ storage None
  else
    let tabId := tabId details in
    let url := details_url details in
    if startsWith url "chrome://" || startsWith url "chrome-extension://" then
      mkOutcome σ storage None
    else
      match analyzeUrlWithHistory url search now σ with
      | (Normal analysis, σ') =>
          let data := serialize analysis σ' in
          mkOutcome σ'
            (<[url := mkStoredEntry data stamp]> storage)
            (Some (tabId, mkMessage "analysisResult" data))
      | (Throw, σ') => mkOutcome σ' storage None
      end.

(** The navigations the listener returns from at once: frames other than
    the main one, and the browser's own pages. *)
Definition skipped (details : Details) : bool :=
  negb (frameId details =? 0)
  || startsWith (details_url details) "chrome://"
  || startsWith (details_url details) "chrome-extension://".

End BackgroundEvents.

(** ** The popup *)

Module Popup.
Import JsString Background Messaging.

(** The elements the popup script writes to; [true] in a [_hidden] field
    means the class [hidden] is on the element. *)
Record Dom : Type := mkDom {
  loading_hidden : bool;
  results_hidden : bool;
  detailedResults_hidden : bool;
  riskLevel_textContent : string;
  riskLevel_className : string;
  riskScore_textContent : string;
  summaryText_textContent : string;
  issuesList_items : list string;
  issuesList_hidden : bool
}.

Definition showLoading (isLoading : bool) (d : Dom) : Dom :=
  if isLoading then
    mkDom false true true (riskLevel_textContent d) (riskLevel_className d)
      (riskScore_textContent d) (summaryText_textContent d) (issuesList_items d)
      (issuesList_hidden d)
  else
    mkDom true false (detailedResults_hidden d) (riskLevel_textContent d)
      (riskLevel_className d) (riskScore_textContent d) (summaryText_textContent d)
      (issuesList_items d) (issuesList_hidden d).

Definition summary_of (riskLevel : RiskLevel) : string :=
  match riskLevel with
  | SAFE => "This site appears to be safe. No phishing indicators detected."
  | LOW => "This site has some minor suspicious characteristics, but is likely safe."
  | MEDIUM => "This site has multiple suspicious characteristics. Be careful with sensitive information."
  | HIGH => "WARNING: This site has strong phishing indicators. Avoid entering personal information."
  end.

Definition displayAnalysisResults (analysis : AnalysisData) (d : Dom) : Dom :=
  let riskLevel := data_riskLevel analysis in
  let score := data_score analysis in
  let issues := data_issues analysis in
  let d :=
    mkDom (loading_hidden d) (results_hidden d) (detailedResults_hidden d)
      ("Risk Level: " +:+ level_name riskLevel)
      ("risk-level " +:+ toLowerCase (level_name riskLevel))
      ("Score: " +:+ score_text score)
      (summary_of riskLevel)
      (issuesList_items d) (issuesList_hidden d) in
  let d :=
    if (0 <? length issues)%nat then
      mkDom (loading_hidden d) (results_hidden d) (detailedResults_hidden d)
        (riskLevel_textContent d) (riskLevel_className d) (riskScore_textContent d)
        (summaryText_textContent d) ([] ++ issues) false
    else
      mkDom (loading_hidden d) (results_hidden d) (detailedResults_hidden d)
        (riskLevel_textContent d) (riskLevel_className d) (riskScore_textContent d)
        (summaryText_textContent d) (issuesList_items d) true in
  showLoading false d.

Definition showError (d : Dom) : Dom :=
  showLoading false
    (mkDom (loading_hidden d) (results_hidden d) (detailedResults_hidden d)
       "Analysis Error" "risk-level" "Error"
       "An error occurred while analyzing this page. Please try again."
       (issuesList_items d) true).

(** The callback of the request sent by [initializePopup]. *)
Definition onAnalysisResponse (response : option AnalysisData) (d : Dom) : Dom :=
  match response with
  | Some analysis => displayAnalysisResults analysis d
  | None => showError d
  end.

(** The issues a user can see. *)
Definition visible_issues (d : Dom) : list string :=
  if issuesList_hidden d then [] else issuesList_items d.

End Popup.


(** * Properties *)

(** ** Strings *)

Module JsStringFacts.
Import JsString.
#[local] Arguments String.append : simpl nomatch.

Lemma append_nil_r (s : string) : s +:+ "" = s.
Proof. induction s as [|a s IH]; simpl; [reflexivity | now rewrite IH]. Qed.

Lemma append_assoc (s t u : string) : (s +:+ t) +:+ u = s +:+ (t +:+ u).
Proof. induction s as [|a s IH]; simpl; [reflexivity | now rewrite IH]. Qed.

Lemma append_eq_nil (s t : string) : s +:+ t = "" -> s = "" /\ t = "".
Proof. destruct s; simpl; [auto | discriminate]. Qed.

Lemma length_append (s t : string) :
  String.length (s +:+ t) = (String.length s + String.length t)%nat.
Proof. induction s as [|a s IH]; simpl; [reflexivity | now rewrite IH]. Qed.

Lemma all_chars_append (p : ascii -> bool) (s t : string) :
  all_chars p (s +:+ t) = all_chars p s && all_chars p t.
Proof.
  induction s as [|a s IH]; simpl; [reflexivity |].
  now rewrite IH, andb_assoc.
Qed.

Lemma startsWith_spec (s t : string) :
  startsWith s t = true <-> exists r, s = t +:+ r.
Proof.
  revert s; induction t as [|b t IH]; intros s; simpl.
  - split; [intros _; now exists s | reflexivity].
  - destruct s as [|a s].
    + split; [discriminate | intros [r Hr]; discriminate].
    + rewrite andb_true_iff, Ascii.eqb_eq, IH. split.
      * intros [-> [r ->]]. now exists r.
      * intros [r Hr]. injection Hr as -> ->. split; [reflexivity | now exists r].
Qed.

Lemma endsWith_spec (s t : string) :
  endsWith s t = true <-> exists p, s = p +:+ t.
Proof.
  induction s as [|a s IH]; cbn [endsWith].
  - rewrite orb_false_r, String.eqb_eq. split.
    + intros <-. now exists "".
    + intros [p Hp]. symmetry in Hp. apply append_eq_nil in Hp. now destruct Hp.
  - rewrite orb_true_iff, String.eqb_eq, IH. split.
    + intros [<- | [p ->]]; [now exists "" | now exists (String a p)].
    + intros [[|b p] Hp]; simpl in Hp.
      * now left.
      * injection Hp as -> ->. right. now exists p.
Qed.

Lemma includes_spec (s t : string) :
  includes s t = true <-> exists p r, s = p +:+ t +:+ r.
Proof.
  induction s as [|a s IH].
  - cbn [includes]. rewrite orb_false_r, startsWith_spec. split.
    + intros [r Hr]. now exists "", r.
    + intros [p [r Hpr]]. symmetry in Hpr.
      apply append_eq_nil in Hpr as [-> Hpr]. now exists r.
  - cbn [includes]. rewrite orb_true_iff, startsWith_spec, IH. split.
    + intros [[r Hr] | [p [r ->]]]; [now exists "", r | now exists (String a p), r].
    + intros [[|b p] [r Hpr]]; simpl in Hpr.
      * left. now exists r.
      * injection Hpr as -> ->. right. now exists p, r.
Qed.

End JsStringFacts.

(** ** The matcher decides the language *)

Module RegexFacts.
Import JsString Regex JsStringFacts.
#[local] Arguments String.append : simpl nomatch.

Lemma Matches_nil_nullable (r : regex) (w : string) :
  Matches r w -> w = "" -> nullable r = true.
Proof.
  induction 1 as [| | r s u v _ IHr _ IHs | r s u _ IH | r s u _ IH | |];
    intros Hw; simpl; try reflexivity; try discriminate.
  - apply append_eq_nil in Hw as [-> ->]. now rewrite IHr, IHs.
  - now rewrite IH.
  - rewrite IH by assumption. apply orb_true_r.
Qed.

Lemma nullable_Matches (r : regex) : nullable r = true <-> Matches r "".
Proof.
  split; [| intros H; now apply (Matches_nil_nullable r "")].
  induction r as [| | p | r IHr s IHs | r IHr s IHs | r IH]; simpl; intros H;
    try discriminate.
  - constructor.
  - apply andb_true_iff in H as [Hr Hs].
    change "" with ("" +:+ ""). constructor; auto.
  - apply orb_true_iff in H as [Hr | Hs]; [apply MAltL | apply MAltR]; auto.
  - constructor.
Qed.

Lemma Matches_Cat (r s : regex) (w : string) :
  Matches (Cat r s) w <-> exists u v, w = u +:+ v /\ Matches r u /\ Matches s v.
Proof.
  split.
  - inversion 1; subst. eauto.
  - intros (u & v & -> & Hu & Hv). now constructor.
Qed.

Lemma Matches_Alt (r s : regex) (w : string) :
  Matches (Alt r s) w <-> Matches r w \/ Matches s w.
Proof.
  split.
  - inversion 1; subst; auto.
  - intros [H | H]; [now apply MAltL | now apply MAltR].
Qed.

Lemma Matches_Void (w : string) : ~ Matches Void w.
Proof. inversion 1. Qed.

Lemma Matches_Eps (w : string) : Matches Eps w <-> w = "".
Proof. split; [inversion 1; reflexivity | intros ->; constructor]. Qed.

Lemma Matches_Class (p : ascii -> bool) (w : string) :
  Matches (Class p) w <-> exists a, w = String a "" /\ p a = true.
Proof.
  split.
  - inversion 1; subst. eauto.
  - intros (a & -> & Ha). now constructor.
Qed.

Lemma cat_Matches (r s : regex) (w : string) :
  Matches (cat r s) w <-> Matches (Cat r s) w.
Proof.
  rewrite Matches_Cat.
  destruct r; destruct s; simpl; try tauto;
    try (split; [intros H; now apply Matches_Void in H
                | intros (u & v & _ & Hu & Hv);
                  first [now apply Matches_Void in Hu | now apply Matches_Void in Hv]]);
    try (rewrite Matches_Cat; tauto);
    (split;
     [ intros H; exists "", w; repeat split; [constructor | exact H]
     | intros (u & v & -> & Hu & Hv); apply Matches_Eps in Hu; now subst ]).
Qed.

Lemma alt_Matches (r s : regex) (w : string) :
  Matches (alt r s) w <-> Matches (Alt r s) w.
Proof.
  rewrite Matches_Alt.
  destruct r; destruct s; simpl; try (rewrite Matches_Alt); try tauto;
    (split; [tauto | intros [H | H]; [first [now apply Matches_Void in H | exact H]
                                     | first [now apply Matches_Void in H | exact H]]]).
Qed.

Lemma Matches_Star_cons (r : regex) (w : string) :
  Matches (Star r) w -> forall a w', w = String a w' ->
  exists u v, w' = u +:+ v /\ Matches r (String a u) /\ Matches (Star r) v.
Proof.
  intros H. remember (Star r) as sr eqn:Hsr.
  induction H as [| | | | | | r0 u v Hu _ Hv IHv]; try discriminate.
  injection Hsr as ->. intros a w' Hw.
  destruct u as [|b u]; simpl in Hw.
  - apply IHv; [reflexivity | exact Hw].
  - injection Hw as -> <-. exists u, v. repeat split; assumption.
Qed.

Lemma deriv_Matches (a : ascii) (r : regex) (w : string) :
  Matches (deriv a r) w <-> Matches r (String a w).
Proof.
  revert w.
  induction r as [| | p | r IHr s IHs | r IHr s IHs | r IH]; intros w; simpl.
  - split; inversion 1.
  - split; inversion 1.
  - rewrite Matches_Class. destruct (p a) eqn:Hp.
    + rewrite Matches_Eps. split.
      * intros ->. now exists a.
      * intros (b & Hb & _). now injection Hb.
    + split; [intros H; now apply Matches_Void in H |].
      intros (b & Hb & Hpb). injection Hb as <- _. congruence.
  - assert (Hc : Matches (Cat (deriv a r) s) w
                 <-> exists u v, w = u +:+ v /\ Matches r (String a u) /\ Matches s v).
    { rewrite Matches_Cat. split; intros (u & v & E & Hu & Hv); exists u, v;
        (repeat split; [assumption | now apply IHr | assumption]). }
    rewrite (Matches_Cat r s (String a w)).
    destruct (nullable r) eqn:Hn.
    + rewrite alt_Matches, Matches_Alt, cat_Matches, Hc, IHs. split.
      * intros [(u & v & -> & Hu & Hv) | Hs].
        -- now exists (String a u), v.
        -- exists "", (String a w). repeat split; [now apply nullable_Matches | exact Hs].
      * intros ([|b u] & v & E & Hu & Hv); simpl in E.
        -- subst v. now right.
        -- injection E as <- ->. left. now exists u, v.
    + rewrite cat_Matches, Hc. split.
      * intros (u & v & -> & Hu & Hv). now exists (String a u), v.
      * intros ([|b u] & v & E & Hu & Hv); simpl in E.
        -- apply nullable_Matches in Hu. congruence.
        -- injection E as <- ->. now exists u, v.
  - rewrite alt_Matches, !Matches_Alt, IHr, IHs. tauto.
  - rewrite cat_Matches, Matches_Cat. split.
    + intros (u & v & -> & Hu & Hv). apply IH in Hu.
      change (String a (u +:+ v)) with (String a u +:+ v). now constructor.
    + intros H. destruct (Matches_Star_cons _ _ H a w eq_refl) as (u & v & -> & Hu & Hv).
      exists u, v. repeat split; [now apply IH | exact Hv].
Qed.

(** [matchesb] accepts exactly the strings of the language. *)
Lemma matchesb_Matches (r : regex) (w : string) :
  matchesb r w = true <-> Matches r w.
Proof.
  revert r; induction w as [|a w IH]; intros r; simpl.
  - apply nullable_Matches.
  - rewrite IH. apply deriv_Matches.
Qed.

Lemma Matches_chr (c : ascii) (w : string) :
  Matches (chr c) w <-> w = String c "".
Proof.
  unfold chr. rewrite Matches_Class. split.
  - intros (a & -> & Ha). apply Ascii.eqb_eq in Ha. now subst.
  - intros ->. exists c. split; [reflexivity | apply Ascii.eqb_refl].
Qed.

Lemma Matches_Star_any (w : string) : Matches (Star any) w.
Proof.
  induction w as [|a w IH]; [constructor |].
  change (String a w) with (String a "" +:+ w).
  constructor; [now constructor | exact IH].
Qed.

Lemma Matches_lit (s w : string) : Matches (lit s) w <-> w = s.
Proof.
  revert w; induction s as [|a s IH]; intros w; simpl.
  - apply Matches_Eps.
  - rewrite Matches_Cat. split.
    + intros (u & v & -> & Hu & Hv). apply Matches_chr in Hu as ->.
      apply IH in Hv as ->. reflexivity.
    + intros ->. exists (String a ""), s. repeat split.
      * now apply Matches_chr.
      * now apply IH.
Qed.

(** A pattern that is a plain word, without anchors, is a substring test. *)
Lemma matchesb_unanchored_lit (s w : string) :
  matchesb (unanchored (lit s)) w = includes w s.
Proof.
  apply eq_true_iff_eq. rewrite matchesb_Matches, includes_spec.
  unfold unanchored. rewrite Matches_Cat. split.
  - intros (p & v & -> & _ & Hv).
    apply Matches_Cat in Hv as (x & r & -> & Hx & _).
    apply Matches_lit in Hx as ->. now exists p, r.
  - intros (p & r & ->). exists p, (s +:+ r). repeat split.
    + apply Matches_Star_any.
    + apply MCat; [now apply Matches_lit | apply Matches_Star_any].
Qed.

Lemma Matches_rep_Class (n : nat) (p : ascii -> bool) (w : string) :
  Matches (rep n (Class p)) w <-> String.length w = n /\ all_chars p w = true.
Proof.
  revert w; induction n as [|n IH]; intros w; simpl.
  - rewrite Matches_Eps. split.
    + intros ->. now split.
    + intros [Hl _]. now destruct w.
  - rewrite Matches_Cat. split.
    + intros (u & v & -> & Hu & Hv).
      apply Matches_Class in Hu as (a & -> & Ha). apply IH in Hv as [Hl Hv].
      simpl. now rewrite Hl, Ha, Hv.
    + intros [Hl Hw]. destruct w as [|a w]; [discriminate |].
      simpl in Hl, Hw. apply andb_true_iff in Hw as [Ha Hw].
      exists (String a ""), w. repeat split.
      * now constructor.
      * apply IH. split; [now injection Hl | exact Hw].
Qed.

Lemma Matches_upto_Class (n : nat) (p : ascii -> bool) (w : string) :
  Matches (upto n (Class p)) w
  <-> (String.length w <= n)%nat /\ all_chars p w = true.
Proof.
  revert w; induction n as [|n IH]; intros w; simpl.
  - rewrite Matches_Eps. split.
    + intros ->. now split.
    + intros [Hl _]. destruct w; [reflexivity | simpl in Hl; lia].
  - rewrite Matches_Alt, Matches_Eps, Matches_Cat. split.
    + intros [-> | (u & v & -> & Hu & Hv)].
      * simpl. split; [lia | reflexivity].
      * apply Matches_Class in Hu as (a & -> & Ha). apply IH in Hv as [Hl Hv].
        simpl. rewrite Ha, Hv. split; [lia | reflexivity].
    + intros [Hl Hw]. destruct w as [|a w]; [now left | right].
      simpl in Hl, Hw. apply andb_true_iff in Hw as [Ha Hw].
      exists (String a ""), w. repeat split.
      * now constructor.
      * apply IH. split; [lia | exact Hw].
Qed.

Lemma Matches_between_Class (m n : nat) (p : ascii -> bool) (w : string) :
  (m <= n)%nat ->
  Matches (between m n (Class p)) w
  <-> (m <= String.length w <= n)%nat /\ all_chars p w = true.
Proof.
  intros Hmn. unfold between. rewrite Matches_Cat. split.
  - intros (u & v & -> & Hu & Hv).
    apply Matches_rep_Class in Hu as [Hlu Hu].
    apply Matches_upto_Class in Hv as [Hlv Hv].
    rewrite length_append, all_chars_append, Hu, Hv. split; [lia | reflexivity].
  - intros [Hl Hw].
    assert (Hsplit : forall k (x : string), (k <= String.length x)%nat ->
              exists u v, x = u +:+ v /\ String.length u = k).
    { induction k as [|k IHk]; intros x Hx.
      - now exists "", x.
      - destruct x as [|a x]; [simpl in Hx; lia |].
        destruct (IHk x) as (u & v & -> & Hu); [simpl in Hx; lia |].
        exists (String a u), v. split; [reflexivity | simpl; now rewrite Hu]. }
    destruct (Hsplit m w) as (u & v & -> & Hu); [lia |].
    rewrite all_chars_append in Hw. apply andb_true_iff in Hw as [Hwu Hwv].
    rewrite length_append in Hl.
    exists u, v. repeat split.
    + now apply Matches_rep_Class.
    + apply Matches_upto_Class. split; [lia | exact Hwv].
Qed.

End RegexFacts.


(** ** The background script: what [analyzeUrl] computes *)

Module BackgroundFacts.
Import JsString Regex Background Spec JsStringFacts RegexFacts.

Lemma array_push_last (σ : store) (acc : list string) (x : string) :
  array_push (length σ) x (σ ++ [acc]) = σ ++ [acc ++ [x]].
Proof.
  unfold array_push.
  replace (length σ) with (length σ + 0)%nat by lia.
  now rewrite alter_app_r.
Qed.

(** The fifteen word patterns of [SUSPICIOUS_PATTERNS] are substring
    tests. *)
Lemma test_literal (s w : string) : test (literal s) w = includes w s.
Proof. apply matchesb_unanchored_lit. Qed.

Lemma total_app (h1 h2 : list hit) : total (h1 ++ h2) = total h1 + total h2.
Proof.
  unfold total. induction h1 as [|x h1 IH]; simpl; [reflexivity |].
  rewrite IH. lia.
Qed.

Lemma Emits_ret (l : loc) : Emits l (mret tt) [].
Proof.
  intros sc σ acc _. unfold mret, M_ret, total. simpl.
  now rewrite Z.add_0_r, app_nil_r.
Qed.

Lemma Emits_seq (l : loc) (m1 m2 : M unit) (h1 h2 : list hit) :
  Emits l m1 h1 -> Emits l m2 h2 -> Emits l (m1 ;; m2) (h1 ++ h2).
Proof.
  intros H1 H2 sc σ acc Hl. unfold mbind, M_bind.
  rewrite (H1 sc σ acc Hl), (H2 _ σ _ Hl).
  now rewrite total_app, map_app, Z.add_assoc, app_assoc.
Qed.

Lemma Emits_hit (l : loc) (b : bool) (w : Z) (issue : string) :
  Emits l (when b (add_score w ;; push l issue)) (hit_if b w issue).
Proof.
  destruct b; simpl; [| apply Emits_ret].
  intros sc σ acc <-. unfold mbind, M_bind, add_score, push, total. simpl.
  now rewrite array_push_last, Z.add_0_r.
Qed.

Lemma Emits_forEach {A : Type} (l : loc) (c : A -> bool) (w : Z)
    (g : A -> string) (xs : list A) :
  Emits l (forEach xs (fun x => when (c x) (add_score w ;; push l (g x))))
    (map (fun x => (w, g x)) (List.filter c xs)).
Proof.
  induction xs as [|x xs IH]; simpl; [apply Emits_ret |].
  replace (map (fun x => (w, g x)) (if c x then x :: List.filter c xs else List.filter c xs))
    with (hit_if (c x) w (g x) ++ map (fun x => (w, g x)) (List.filter c xs))
    by now destruct (c x).
  apply Emits_seq; [apply Emits_hit | exact IH].
Qed.

Section WithPlatform.
Context `{P : Platform}.

(** Once the URL is parsed, the [try] block triggers the indicators of
    [url_hits] in order. *)
Lemma analyzeUrl_try_Emits (u : string) (o : URL) (l : loc) :
  URL_new u = Some o -> Emits l (analyzeUrl_try u l) (url_hits u o).
Proof.
  intros Hu sc σ acc Hl. unfold analyzeUrl_try.
  unfold mbind at 1. unfold M_bind at 1. unfold new_URL. rewrite Hu.
  cbv zeta. revert sc σ acc Hl.
  change (Emits l
    (when (test ipRegex (Background.hostname o))
       (add_score 40 ;; push l "IP address used as hostname") ;;
     when (array_includes SUSPICIOUS_TLDS
             (toLowerCase (pop (split "." (Background.hostname o)))))
       (add_score 15 ;;
        push l ("Suspicious TLD: ." +:+
                toLowerCase (pop (split "." (Background.hostname o))))) ;;
     when (30 <? Z.of_nat (String.length (Background.hostname o)))
       (add_score 15 ;; push l "Unusually long domain name") ;;
     when (3 <? Z.of_nat (length (split "." (Background.hostname o))) - 2)
       (add_score 15 ;; push l "Excessive number of subdomains") ;;
     when (1 <? Z.of_nat (count_matches "-" (Background.hostname o)))
       (add_score 10 ;; push l "Multiple hyphens in domain") ;;
     forEach SUSPICIOUS_PATTERNS (fun pattern =>
       when (test pattern (Background.hostname o) || test pattern (pathname o))
         (add_score 10 ;;
          push l ("Suspicious pattern detected: " +:+ toString pattern))) ;;
     forEach SECURITY_TERMS (fun term =>
       when (includes (Background.hostname o) term)
         (add_score 5 ;;
          push l ("Security term in domain: " +:+ dquote +:+ term +:+ dquote))) ;;
     when (includes u "%")
       (add_score 10 ;; push l "URL contains encoded characters"))
    (url_hits u o)).
  unfold url_hits, other_hits.
  repeat (apply Emits_seq; [first [apply Emits_hit | apply Emits_forEach] |]).
  apply Emits_hit.
Qed.

(** [analyzeUrl] on a URL that parses: a fresh array holds the issues of
    the triggered indicators, the score is the sum of their weights. *)
Lemma analyzeUrl_parsed (u : string) (o : URL) (σ : store) :
  URL_new u = Some o ->
  analyzeUrl u σ
  = (Normal {| score := Num (total (url_hits u o)); issues := length σ;
               riskLevel := riskLevel_spec (total (url_hits u o));
               familiarity := None |},
     σ ++ [map snd (url_hits u o)]).
Proof.
  intros Hu. unfold analyzeUrl, try_catch.
  rewrite (analyzeUrl_try_Emits u o (length σ) Hu 0 σ [] eq_refl).
  reflexivity.
Qed.

(** [analyzeUrl] on a string the URL constructor rejects. *)
Lemma analyzeUrl_malformed (u : string) (σ : store) :
  URL_new u = None ->
  analyzeUrl u σ
  = (Normal {| score := Num 20; issues := length σ; riskLevel := SAFE;
               familiarity := None |},
     σ ++ [["Malformed URL"]]).
Proof.
  intros Hu. unfold analyzeUrl, try_catch, analyzeUrl_try.
  unfold mbind at 1. unfold M_bind at 1. unfold new_URL. rewrite Hu.
  unfold analyzeUrl_catch, mbind, M_bind, add_score, push. simpl.
  now rewrite array_push_last.
Qed.

End WithPlatform.

End BackgroundFacts.

(** ** The risk level, malformed input and the familiarity adjustment *)

Module RiskFacts.
Import JsString Regex Background Spec BackgroundFacts.

Lemma riskLevel_spec_bands (s : Z) :
  (riskLevel_spec s = HIGH <-> 80 <= s)
  /\ (riskLevel_spec s = MEDIUM <-> 60 <= s < 80)
  /\ (riskLevel_spec s = LOW <-> 30 <= s < 60)
  /\ (riskLevel_spec s = SAFE <-> s < 30).
Proof.
  unfold riskLevel_spec.
  destruct (Z.leb_spec 80 s); [repeat split; intros; (lia || discriminate || reflexivity) |].
  destruct (Z.leb_spec 60 s); [repeat split; intros; (lia || discriminate || reflexivity) |].
  destruct (Z.leb_spec 30 s); repeat split; intros; (lia || discriminate || reflexivity).
Qed.

Lemma riskLevel_spec_mono (s s' : Z) :
  s <= s' -> rank (riskLevel_spec s) <= rank (riskLevel_spec s').
Proof.
  intros Hle. unfold riskLevel_spec.
  destruct (Z.leb_spec 80 s), (Z.leb_spec 80 s'),
           (Z.leb_spec 60 s), (Z.leb_spec 60 s'),
           (Z.leb_spec 30 s), (Z.leb_spec 30 s'); simpl; lia.
Qed.

(** The level [aggregateRisk] assigns is the mapping applied to the
    adjusted score. *)
Lemma aggregateRisk_level (base : Analysis) (fam : FamiliaritySnapshot)
    (σ : store) (z : Z) :
  score (aggregateRisk base fam σ).1 = Num z ->
  riskLevel (aggregateRisk base fam σ).1 = riskLevel_spec z.
Proof.
  unfold aggregateRisk.
  destruct (firstVisit fam); simpl; intros ->; reflexivity.
Qed.

Section WithPlatform.
Context `{P : Platform}.

(** [analyzeUrl] always returns, with an integer score and the level the
    mapping gives for it. *)
Lemma analyzeUrl_returns (u : string) (σ : store) :
  exists a σ' z,
    analyzeUrl u σ = (Normal a, σ') /\ score a = Num z
    /\ issues a = length σ /\ riskLevel a = riskLevel_spec z.
Proof.
  destruct (URL_new u) as [o|] eqn:Hu.
  - rewrite (analyzeUrl_parsed u o σ Hu). eauto 10.
  - rewrite (analyzeUrl_malformed u σ Hu).
    do 3 eexists. split; [reflexivity | repeat split].
Qed.

(** A snapshot of [checkBrowserHistory] that is not a first visit carries
    a familiarity score. *)
Lemma checkBrowserHistory_score (u : string)
    (search : option (list HistoryItem)) (now : Z) :
  firstVisit (checkBrowserHistory u search now) = true
  \/ exists fs, familiarityScore (checkBrowserHistory u search now) = Some fs.
Proof.
  unfold checkBrowserHistory.
  destruct (URL_new u); [| now left].
  destruct search; [| now left].
  destruct (Nat.eqb _ 0); [now left | right; eauto].
Qed.

Lemma analyzeUrlWithHistory_returns (u : string)
    (search : option (list HistoryItem)) (now : Z) (σ : store) :
  exists a σ' z,
    analyzeUrlWithHistory u search now σ = (Normal a, σ')
    /\ score a = Num z /\ riskLevel a = riskLevel_spec z.
Proof.
  unfold analyzeUrlWithHistory.
  destruct (analyzeUrl_returns u σ) as (b & σ1 & zb & -> & Hb & _ & _).
  pose proof (aggregateRisk_level b (checkBrowserHistory u search now) σ1) as Hl.
  destruct (aggregateRisk b (checkBrowserHistory u search now) σ1) as [r σ2] eqn:Hr.
  simpl in Hl.
  assert (Hz : exists z, score r = Num z).
  { replace r with (aggregateRisk b (checkBrowserHistory u search now) σ1).1
      by now rewrite Hr.
    unfold aggregateRisk. rewrite Hb.
    destruct (checkBrowserHistory_score u search now) as [-> | [fs Hfs]].
    - simpl. eauto.
    - rewrite Hfs. destruct (firstVisit _); simpl; eauto. }
  destruct Hz as [z Hz]. exists r, σ2, z. auto.
Qed.

End WithPlatform.

End RiskFacts.

Import JsString Regex Background Spec.
Import JsStringFacts RegexFacts BackgroundFacts RiskFacts.

(** C1. For every integer score [s] the risk-level mapping selects exactly
    one level: HIGH iff [s >= 80], MEDIUM iff [60 <= s < 80], LOW iff
    [30 <= s < 60], SAFE iff [s < 30]; the mapping is non-decreasing; and
    the same mapping gives the level both of the raw score of [analyzeUrl]
    and of the adjusted score of [analyzeUrlWithHistory], as a function of
    the score alone. *)
Theorem C1_risk_level_mapping `{P : Platform} (s s' : Z) (Hle : s <= s') :
  (riskLevel_spec s = HIGH <-> 80 <= s)
  /\ (riskLevel_spec s = MEDIUM <-> 60 <= s < 80)
  /\ (riskLevel_spec s = LOW <-> 30 <= s < 60)
  /\ (riskLevel_spec s = SAFE <-> s < 30)
  /\ rank (riskLevel_spec s) <= rank (riskLevel_spec s')
  /\ (forall (u : string) (σ : store), exists a σ' z,
        analyzeUrl u σ = (Normal a, σ')
        /\ score a = Num z /\ riskLevel a = riskLevel_spec z)
  /\ (forall (base : Analysis) (fam : FamiliaritySnapshot) (σ : store) (z : Z),
        score (aggregateRisk base fam σ).1 = Num z ->
        riskLevel (aggregateRisk base fam σ).1 = riskLevel_spec z)
  /\ (forall (u : string) (search : option (list HistoryItem)) (now : Z)
             (σ : store), exists a σ' z,
        analyzeUrlWithHistory u search now σ = (Normal a, σ')
        /\ score a = Num z /\ riskLevel a = riskLevel_spec z).
Proof.
  destruct (riskLevel_spec_bands s) as (H1 & H2 & H3 & H4).
  repeat split; try tauto.
  - now apply riskLevel_spec_mono.
  - intros u σ. destruct (analyzeUrl_returns u σ) as (a & σ' & z & ? & ? & ? & ?).
    eauto 10.
  - apply aggregateRisk_level.
  - apply analyzeUrlWithHistory_returns.
Qed.

Lemma C1_risk_level_mapping_witness :
  59 <= 60 /\ riskLevel_spec 59 = LOW /\ riskLevel_spec 60 = MEDIUM
  /\ rank (riskLevel_spec 59) <= rank (riskLevel_spec 60).
Proof.
  assert (H : 59 <= 60) by lia.
  pose proof (@C1_risk_level_mapping plain_platform 59 60 H) as (_ & _ & _ & _ & Hm & _).
  repeat split; [exact H | exact Hm].
Defined.

(** C2. [analyzeUrl] never throws: on every string the URL constructor
    rejects it returns score 20 and the issue list [["Malformed URL"]], and
    on every string whatsoever it returns a result. *)
Theorem C2_malformed_url_degrades `{P : Platform} (u : string) (σ : store)
    (Hfail : URL_new u = None) :
  analyzeUrl u σ
  = (Normal {| score := Num 20; issues := length σ; riskLevel := SAFE;
               familiarity := None |},
     σ ++ [["Malformed URL"]])
  /\ (forall (u' : string) (σ' : store), exists a σ'',
        analyzeUrl u' σ' = (Normal a, σ'')).
Proof.
  split; [now apply analyzeUrl_malformed |].
  intros u' σ'. destruct (analyzeUrl_returns u' σ') as (a & σ'' & _ & -> & _).
  eauto.
Qed.

Lemma C2_malformed_url_degrades_witness :
  @URL_new plain_platform "not a url" = None
  /\ @analyzeUrl plain_platform "not a url" []
     = (Normal {| score := Num 20; issues := 0%nat; riskLevel := SAFE;
                  familiarity := None |},
        [["Malformed URL"]]).
Proof.
  split; [reflexivity |].
  exact (proj1 (@C2_malformed_url_degrades plain_platform "not a url" [] eq_refl)).
Defined.

(** The issue [aggregateRisk] appends for a snapshot, if any. *)
Lemma aggregateRisk_store (base : Analysis) (fam : FamiliaritySnapshot) (σ : store) :
  (aggregateRisk base fam σ).2
  = if firstVisit fam then
      array_push (issues base) "First visit to this domain" σ
    else if num_gtb (num_of_field (familiarityScore fam)) 70 then
      array_push (issues base)
        ("Frequently visited site (" +:+ pretty (visitCount fam) +:+ " visits)") σ
    else σ.
Proof. unfold aggregateRisk. now destruct (firstVisit fam). Qed.

Lemma array_push_lookup (l : loc) (x : string) (σ : store) (old : list string) :
  σ !! l = Some old -> array_push l x σ !! l = Some (old ++ [x]).
Proof. intros H. unfold array_push. now rewrite list_lookup_alter_eq, H. Qed.

Lemma array_push_lookup_ne (l l' : loc) (x : string) (σ : store) :
  l <> l' -> array_push l x σ !! l' = σ !! l'.
Proof. intros H. unfold array_push. now rewrite list_lookup_alter_ne. Qed.

(** C3. With a base score [b]: if the snapshot has [firstVisit] true, the
    aggregated score is [b + 90] and the first-visit issue is appended;
    otherwise, with familiarity score [fs], the aggregated score is
    [max (b - floor (fs / 4)) 0], a reduction in [[0,25]] for the scores
    [fs] of [[0,100]] a snapshot carries, and the frequently-visited issue
    with the visit count is appended exactly when [fs > 70].  The two
    issues read ["First visit to this domain"] and
    ["Frequently visited site (<visitCount> visits)"], as the source
    spells them. *)
Theorem C3_familiarity_adjustment (base : Analysis) (fam : FamiliaritySnapshot)
    (σ : store) (b : Z) (old : list string)
    (Hscore : score base = Num b)
    (Hissues : σ !! issues base = Some old) :
  (firstVisit fam = true ->
     score (aggregateRisk base fam σ).1 = Num (b + 90)
     /\ (aggregateRisk base fam σ).2 !! issues (aggregateRisk base fam σ).1
        = Some (old ++ ["First visit to this domain"]))
  /\ (firstVisit fam = false ->
      forall fs : Z, familiarityScore fam = Some fs ->
        score (aggregateRisk base fam σ).1 = Num (Z.max (b - fs / 4) 0)
        /\ (0 <= fs <= 100 -> 0 <= fs / 4 <= 25)
        /\ (aggregateRisk base fam σ).2 !! issues (aggregateRisk base fam σ).1
           = Some (if 70 <? fs
                   then old ++ ["Frequently visited site ("
                                +:+ pretty (visitCount fam) +:+ " visits)"]
                   else old)).
Proof.
  split.
  - intros Hfirst. rewrite aggregateRisk_store.
    unfold aggregateRisk. rewrite Hfirst, Hscore. simpl.
    split; [reflexivity | now apply array_push_lookup].
  - intros Hfirst fs Hfs. rewrite aggregateRisk_store.
    unfold aggregateRisk. rewrite Hfirst, Hscore, Hfs. simpl.
    split; [reflexivity |]. split.
    + intros Hrange. split; [apply Z.div_pos; lia | apply Z.div_le_upper_bound; lia].
    + destruct (70 <? fs); [now apply array_push_lookup | exact Hissues].
Qed.

Lemma C3_familiarity_adjustment_witness :
  score (aggregateRisk (mkAnalysis (Num 50) 0%nat LOW None)
           (mkSnapshot true false 20 (Some 0) (Some 100) false) [[]]).1 = Num 25
  /\ (aggregateRisk (mkAnalysis (Num 50) 0%nat LOW None)
        (mkSnapshot true false 20 (Some 0) (Some 100) false) [[]]).2 !! 0%nat
     = Some ["Frequently visited site (20 visits)"].
Proof.
  pose proof (C3_familiarity_adjustment (mkAnalysis (Num 50) 0%nat LOW None)
                (mkSnapshot true false 20 (Some 0) (Some 100) false) [[]] 50 []
                eq_refl eq_refl) as [_ H].
  destruct (H eq_refl 100 eq_refl) as (Hs & _ & Hi).
  split; [exact Hs | exact Hi].
Defined.

(** C5. When the URL constructor reads host [192.168.1.1] and path
    [/login] off ["http://192.168.1.1/login"], [analyzeUrl] returns score
    50, made of the IP-address indicator (+40) and the match of the pattern
    [login] (+10), with exactly their two issues; aggregating that result
    with any snapshot whose [firstVisit] is true gives score 140 and level
    HIGH. *)
Theorem C5_ip_login_scenario `{P : Platform} (σ : store)
    (Hparse : URL_new "http://192.168.1.1/login"
              = Some (mkURL "192.168.1.1" "/login")) :
  url_hits "http://192.168.1.1/login" (mkURL "192.168.1.1" "/login")
  = [(40, "IP address used as hostname");
     (10, "Suspicious pattern detected: /login/")]
  /\ exists base,
       analyzeUrl "http://192.168.1.1/login" σ
       = (Normal base,
          σ ++ [["IP address used as hostname";
                 "Suspicious pattern detected: /login/"]])
       /\ score base = Num 50
       /\ forall (fam : FamiliaritySnapshot) (σ1 : store),
            firstVisit fam = true ->
            score (aggregateRisk base fam σ1).1 = Num 140
            /\ riskLevel (aggregateRisk base fam σ1).1 = HIGH.
Proof.
  assert (Hhits : url_hits "http://192.168.1.1/login" (mkURL "192.168.1.1" "/login")
                  = [(40, "IP address used as hostname");
                     (10, "Suspicious pattern detected: /login/")])
    by (vm_compute; reflexivity).
  split; [exact Hhits |].
  rewrite (analyzeUrl_parsed _ _ σ Hparse), Hhits.
  eexists. split; [reflexivity |]. split; [reflexivity |].
  intros fam σ1 Hfirst. unfold aggregateRisk. rewrite Hfirst. simpl. split; reflexivity.
Qed.

Lemma C5_ip_login_scenario_witness :
  @URL_new plain_platform "http://192.168.1.1/login"
  = Some (mkURL "192.168.1.1" "/login")
  /\ exists base,
       @analyzeUrl plain_platform "http://192.168.1.1/login" []
       = (Normal base,
          [["IP address used as hostname";
            "Suspicious pattern detected: /login/"]])
       /\ score base = Num 50.
Proof.
  split; [reflexivity |].
  destruct (@C5_ip_login_scenario plain_platform [] eq_refl)
    as (_ & base & Hrun & Hscore & _).
  exists base. split; [exact Hrun | exact Hscore].
Defined.

(** ** Familiarity *)

Lemma fold_left_max_le (r : list Z) (x bound : Z) :
  x <= bound -> Forall (fun t => t <= bound) r -> fold_left Z.max r x <= bound.
Proof.
  revert x; induction r as [|y r IH]; intros x Hx Hr; simpl; [exact Hx |].
  inversion Hr; subst. apply IH; [lia | assumption].
Qed.

Lemma Math_max_le (l : list Z) (bound : Z) :
  l <> [] -> Forall (fun t => t <= bound) l -> Math_max l <= bound.
Proof.
  destruct l as [|x r]; [congruence |].
  intros _ H. inversion H; subst. now apply fold_left_max_le.
Qed.

(** C4. When at least one history item matches the domain, the returned
    [familiarityScore] is
    [min (visitCount, 20) * 2 + max (60 - daysSinceLastVisit * 2, 0)], and
    whenever no matching visit is stamped later than the clock reading the
    score lies in [[0, 100]]. *)
Theorem C4_familiarity_score `{P : Platform} (u : string) (o : URL)
    (items : list HistoryItem) (now : Z)
    (Hparse : URL_new u = Some o) :
  (matching (Background.hostname o) items <> [] ->
     visitCount (checkBrowserHistory u (Some items) now)
     = Z.of_nat (length (matching (Background.hostname o) items))
     /\ exists d : Z,
          daysSinceLastVisit (checkBrowserHistory u (Some items) now) = Some d
          /\ d = (now - Math_max (map lastVisitTime
                                    (matching (Background.hostname o) items)))
                 / 86400000
          /\ familiarityScore (checkBrowserHistory u (Some items) now)
             = Some (Z.min (visitCount (checkBrowserHistory u (Some items) now)) 20 * 2
                     + Z.max (60 - d * 2) 0))
  /\ (Forall (fun i => lastVisitTime i <= now)
        (matching (Background.hostname o) items) ->
      exists fs : Z,
        familiarityScore (checkBrowserHistory u (Some items) now) = Some fs
        /\ 0 <= fs <= 100).
Proof.
  unfold checkBrowserHistory. rewrite Hparse.
  fold (matching (Background.hostname o) items).
  set (m := matching (Background.hostname o) items).
  destruct m as [|i m'] eqn:Hm.
  - split; [congruence |]. intros _. exists 0. simpl. split; [reflexivity | lia].
  - change (Nat.eqb (length (i :: m')) 0) with false. cbv iota zeta.
    cbn [visitCount daysSinceLastVisit familiarityScore].
    change (24 * 60 * 60 * 1000) with 86400000.
    set (d := (now - Math_max (map lastVisitTime (i :: m'))) / 86400000).
    assert (Hrec : (if d =? 0 then 60 else Z.max (60 - d * 2) 0)
                   = Z.max (60 - d * 2) 0).
    { destruct (Z.eqb_spec d 0) as [-> |]; [reflexivity | reflexivity]. }
    rewrite Hrec. split.
    + intros _. split; [reflexivity |]. exists d. repeat split.
    + intros Hvalid. eexists. split; [reflexivity |].
      assert (Hmax : Math_max (map lastVisitTime (i :: m')) <= now).
      { apply Math_max_le; [discriminate |].
        rewrite List.Forall_map. exact Hvalid. }
      assert (Hd : 0 <= d) by (apply Z.div_pos; lia).
      lia.
Qed.

Lemma C4_familiarity_score_witness :
  @URL_new plain_platform "https://example.com/" = Some (mkURL "example.com" "/")
  /\ familiarityScore
       (@checkBrowserHistory plain_platform "https://example.com/"
          (Some [mkHistoryItem "https://example.com/a" 1000;
                 mkHistoryItem "https://other.org/" 2000;
                 mkHistoryItem "https://shop.example.com/" 3000])
          (3000 + 5 * 86400000))
     = Some (2 * 2 + 50).
Proof.
  split; [reflexivity |].
  destruct (@C4_familiarity_score plain_platform "https://example.com/"
              (mkURL "example.com" "/")
              [mkHistoryItem "https://example.com/a" 1000;
               mkHistoryItem "https://other.org/" 2000;
               mkHistoryItem "https://shop.example.com/" 3000]
              (3000 + 5 * 86400000) eq_refl) as [H _].
  destruct H as (_ & d & _ & Hd & Hfs); [vm_compute; discriminate |].
  rewrite Hfs, Hd. vm_compute. reflexivity.
Defined.

(** C8. The same-domain test of the familiarity evaluator holds exactly
    when the two host names are equal or one ends with a dot followed by
    the other: [a.example.com] and [example.com] match in both orders,
    [notexample.com] and [example.com] do not. *)
Theorem C8_same_domain_test (itemDomain domain : string) :
  (isMatch itemDomain domain = true
   <-> itemDomain = domain
       \/ dot_suffix itemDomain domain
       \/ dot_suffix domain itemDomain)
  /\ isMatch "a.example.com" "example.com" = true
  /\ isMatch "example.com" "a.example.com" = true
  /\ isMatch "notexample.com" "example.com" = false
  /\ isMatch "example.com" "notexample.com" = false.
Proof.
  split; [| repeat split; reflexivity].
  unfold isMatch, dot_suffix.
  rewrite !orb_true_iff, String.eqb_eq, !endsWith_spec. tauto.
Qed.

(** ** The indicators of [analyzeUrl] *)

Lemma total_hit_if (b : bool) (w : Z) (issue : string) :
  total (hit_if b w issue) = if b then w else 0.
Proof. destruct b; unfold total; simpl; lia. Qed.

Lemma total_map_weight {A : Type} (w : Z) (g : A -> string) (l : list A) :
  total (map (fun x => (w, g x)) l) = w * Z.of_nat (length l).
Proof.
  unfold total. induction l as [|x l IH]; [simpl; lia |].
  cbn [map fold_right length fst]. rewrite IH. lia.
Qed.

(** The score of a parsed URL is the sum of the weights of the indicators
    that fire, each counted once per firing. *)
Lemma total_url_hits (u : string) (o : URL) :
  total (url_hits u o)
  = (if test ipRegex (Background.hostname o) then 40 else 0)
    + (if array_includes SUSPICIOUS_TLDS
            (toLowerCase (pop (split "." (Background.hostname o))))
       then 15 else 0)
    + (if 30 <? Z.of_nat (String.length (Background.hostname o)) then 15 else 0)
    + (if 3 <? Z.of_nat (length (split "." (Background.hostname o))) - 2
       then 15 else 0)
    + (if 1 <? Z.of_nat (count_matches "-" (Background.hostname o)) then 10 else 0)
    + 10 * Z.of_nat (length (matched_patterns o))
    + 5 * Z.of_nat (length (matched_terms o))
    + (if includes u "%" then 10 else 0).
Proof.
  unfold url_hits, other_hits. rewrite !total_app, !total_hit_if.
  unfold pattern_hit, term_hit. rewrite !total_map_weight. lia.
Qed.

Lemma filter_orb_length {A : Type} (f g : A -> bool) (l : list A) :
  (length (List.filter f l) <= length (List.filter (fun x => f x || g x) l))%nat.
Proof.
  induction l as [|x l IH]; simpl; [lia |].
  destruct (f x); simpl; [lia |]. destruct (g x); simpl; lia.
Qed.

Lemma In_pattern_hit (u : string) (o : URL) (q : RegExp) :
  In q SUSPICIOUS_PATTERNS -> test q (Background.hostname o) = true ->
  In (pattern_hit q) (url_hits u o).
Proof.
  intros Hq Ht. unfold url_hits, other_hits.
  do 5 (apply in_or_app; right). apply in_or_app; left.
  apply in_map, List.filter_In. split; [exact Hq | now rewrite Ht].
Qed.

Lemma In_term_hit (u : string) (o : URL) (t : string) :
  In t SECURITY_TERMS -> includes (Background.hostname o) t = true ->
  In (term_hit t) (url_hits u o).
Proof.
  intros Hq Ht. unfold url_hits, other_hits.
  do 6 (apply in_or_app; right). apply in_or_app; left.
  apply in_map, List.filter_In. split; [exact Hq | exact Ht].
Qed.

(** C6. For a URL whose host is [paypal-secure-login.xyz], [analyzeUrl]
    triggers the suspicious-TLD indicator (+15), the multiple-hyphens
    indicator (+10), the patterns [secure] and [login] (+10 each) and the
    security term [secure] (+5); the score is the sum of the weights of all
    triggered indicators, nothing being counted once for two firings:
    15 + 10 + 10 for every matching pattern + 5 + 10 if the URL holds a
    percent sign, the host alone matching three patterns. *)
Theorem C6_paypal_secure_login `{P : Platform} (u : string) (o : URL) (σ : store)
    (Hparse : URL_new u = Some o)
    (Hhost : Background.hostname o = "paypal-secure-login.xyz") :
  exists a : Analysis,
    analyzeUrl u σ = (Normal a, σ ++ [map snd (url_hits u o)])
    /\ score a = Num (total (url_hits u o))
    /\ In (15, "Suspicious TLD: .xyz") (url_hits u o)
    /\ In (10, "Multiple hyphens in domain") (url_hits u o)
    /\ In (10, "Suspicious pattern detected: /secure/") (url_hits u o)
    /\ In (10, "Suspicious pattern detected: /login/") (url_hits u o)
    /\ In (5, "Security term in domain: " +:+ dquote +:+ "secure" +:+ dquote)
         (url_hits u o)
    /\ total (url_hits u o)
       = 15 + 10 + 10 * Z.of_nat (length (matched_patterns o)) + 5
         + (if includes u "%" then 10 else 0)
    /\ (3 <= length (matched_patterns o))%nat.
Proof.
  rewrite (analyzeUrl_parsed u o σ Hparse).
  eexists. split; [reflexivity |]. split; [reflexivity |].
  assert (Htld : toLowerCase (pop (split "." (Background.hostname o))) = "xyz")
    by (rewrite Hhost; vm_compute; reflexivity).
  assert (Hhy : (1 <? Z.of_nat (count_matches "-" (Background.hostname o))) = true)
    by (rewrite Hhost; vm_compute; reflexivity).
  repeat split.
  - unfold url_hits, other_hits. rewrite Htld.
    apply in_or_app; right. apply in_or_app; left. now left.
  - unfold url_hits, other_hits. rewrite Hhy.
    do 4 (apply in_or_app; right). apply in_or_app; left. now left.
  - apply (In_pattern_hit u o (literal "secure")).
    + now left.
    + rewrite Hhost. vm_compute. reflexivity.
  - apply (In_pattern_hit u o (literal "login")).
    + right. now left.
    + rewrite Hhost. vm_compute. reflexivity.
  - apply (In_term_hit u o "secure").
    + now left.
    + rewrite Hhost. vm_compute. reflexivity.
  - rewrite total_url_hits, Htld, Hhy.
    replace (matched_terms o) with ["secure"]
      by (unfold matched_terms; rewrite Hhost; vm_compute; reflexivity).
    rewrite Hhost.
    replace (test ipRegex "paypal-secure-login.xyz") with false
      by (vm_compute; reflexivity).
    replace (array_includes SUSPICIOUS_TLDS "xyz") with true
      by (vm_compute; reflexivity).
    replace (30 <? Z.of_nat (String.length "paypal-secure-login.xyz")) with false
      by (vm_compute; reflexivity).
    replace (3 <? Z.of_nat (length (split "." "paypal-secure-login.xyz")) - 2)
      with false by (vm_compute; reflexivity).
    simpl length. lia.
  - unfold matched_patterns.
    eapply Nat.le_trans; [| apply filter_orb_length].
    rewrite Hhost. vm_compute. lia.
Qed.

Lemma C6_paypal_secure_login_witness :
  @URL_new plain_platform "http://paypal-secure-login.xyz/"
  = Some (mkURL "paypal-secure-login.xyz" "/")
  /\ exists a : Analysis,
       @analyzeUrl plain_platform "http://paypal-secure-login.xyz/" []
       = (Normal a,
          [["Suspicious TLD: .xyz"; "Multiple hyphens in domain";
            "Suspicious pattern detected: /secure/";
            "Suspicious pattern detected: /login/";
            "Suspicious pattern detected: /paypal/";
            "Security term in domain: " +:+ dquote +:+ "secure" +:+ dquote]])
       /\ score a = Num 60.
Proof.
  split; [reflexivity |].
  destruct (@C6_paypal_secure_login plain_platform
              "http://paypal-secure-login.xyz/"
              (mkURL "paypal-secure-login.xyz" "/") [] eq_refl eq_refl)
    as (a & Hrun & Hscore & _).
  exists a. split; [exact Hrun | exact Hscore].
Defined.

(** ** The IP-address indicator *)

(** The regular expression of the IP-address check accepts exactly the
    strings of the shape [d.d.d.d] with one to three digits per group. *)
Lemma ipRegex_DottedQuad (h : string) :
  test ipRegex h = true <-> DottedQuad h.
Proof.
  unfold test, ipRegex, lang, anchored, digit, DottedQuad, digits_1_3.
  rewrite matchesb_Matches. split.
  - intros H.
    apply Matches_Cat in H as (a & r1 & -> & Ha & H).
    apply Matches_Cat in H as (p1 & r2 & -> & Hp1 & H).
    apply Matches_Cat in H as (b & r3 & -> & Hb & H).
    apply Matches_Cat in H as (p2 & r4 & -> & Hp2 & H).
    apply Matches_Cat in H as (c & r5 & -> & Hc & H).
    apply Matches_Cat in H as (p3 & d & -> & Hp3 & Hd).
    apply Matches_chr in Hp1 as ->. apply Matches_chr in Hp2 as ->.
    apply Matches_chr in Hp3 as ->.
    apply Matches_between_Class in Ha; [| lia].
    apply Matches_between_Class in Hb; [| lia].
    apply Matches_between_Class in Hc; [| lia].
    apply Matches_between_Class in Hd; [| lia].
    exists a, b, c, d. auto.
  - intros (a & b & c & d & -> & Ha & Hb & Hc & Hd).
    repeat (apply MCat;
            [first [apply Matches_between_Class; [lia | assumption]
                   | now apply Matches_chr] |]).
    apply Matches_between_Class; [lia | assumption].
Qed.

Lemma other_hits_initial (u : string) (o : URL) :
  Forall (fun h : hit => startsWith h.2 "I" = false) (other_hits u o).
Proof.
  unfold other_hits, hit_if.
  repeat (apply Forall_app; split);
    try (match goal with |- context [if ?b then _ else _] => destruct b end;
         repeat constructor);
    apply List.Forall_map, List.Forall_forall; intros x _; reflexivity.
Qed.

Lemma other_hits_not_ip (u : string) (o : URL) :
  ~ In "IP address used as hostname" (map snd (other_hits u o)).
Proof.
  intros Hin. apply in_map_iff in Hin as (h & Hh & Hin).
  pose proof (other_hits_initial u o) as Hall.
  rewrite List.Forall_forall in Hall. specialize (Hall h Hin).
  rewrite Hh in Hall. discriminate Hall.
Qed.

(** C10. For a URL that parses, the IP-address indicator of [analyzeUrl]
    fires exactly when the host has the textual shape [d.d.d.d], each [d]
    being one to three decimal digits, and no range check is made: when it
    fires, the issue ["IP address used as hostname"] comes first and 40 is
    added to what the other indicators give; when the host has another
    shape the issue is absent and nothing is added.  The host
    [999.999.999.999] has that shape. *)
Theorem C10_ip_indicator_is_textual `{P : Platform} (u : string) (o : URL)
    (σ : store) (Hparse : URL_new u = Some o) :
  (DottedQuad (Background.hostname o) ->
     exists a : Analysis,
       analyzeUrl u σ
       = (Normal a,
          σ ++ ["IP address used as hostname" :: map snd (other_hits u o)])
       /\ score a = Num (40 + total (other_hits u o)))
  /\ (~ DottedQuad (Background.hostname o) ->
      exists a : Analysis,
        analyzeUrl u σ = (Normal a, σ ++ [map snd (other_hits u o)])
        /\ score a = Num (total (other_hits u o))
        /\ ~ In "IP address used as hostname" (map snd (other_hits u o)))
  /\ DottedQuad "999.999.999.999"
  /\ ~ DottedQuad "1.2.3"
  /\ ~ DottedQuad "1234.1.1.1".
Proof.
  rewrite (analyzeUrl_parsed u o σ Hparse). unfold url_hits.
  repeat split.
  - intros Hq. apply ipRegex_DottedQuad in Hq. rewrite Hq.
    eexists. split; [reflexivity |].
    cbn [score]. now rewrite total_app, total_hit_if.
  - intros Hq.
    destruct (test ipRegex (Background.hostname o)) eqn:Ht;
      [now apply ipRegex_DottedQuad in Ht |].
    eexists. split; [reflexivity |]. split; [reflexivity |].
    apply other_hits_not_ip.
  - apply ipRegex_DottedQuad. vm_compute. reflexivity.
  - intros Hq. apply ipRegex_DottedQuad in Hq. vm_compute in Hq. discriminate Hq.
  - intros Hq. apply ipRegex_DottedQuad in Hq. vm_compute in Hq. discriminate Hq.
Qed.

Lemma C10_ip_indicator_is_textual_witness :
  @URL_new plain_platform "foo://999.999.999.999/x"
  = Some (mkURL "999.999.999.999" "/x")
  /\ exists a : Analysis,
       @analyzeUrl plain_platform "foo://999.999.999.999/x" []
       = (Normal a, [["IP address used as hostname"]])
       /\ score a = Num 40.
Proof.
  split; [reflexivity |].
  destruct (@C10_ip_indicator_is_textual plain_platform "foo://999.999.999.999/x"
              (mkURL "999.999.999.999" "/x") [] eq_refl)
    as (Hfire & _ & Hquad & _).
  destruct (Hfire Hquad) as (a & Hrun & Hscore).
  exists a. split; [exact Hrun | exact Hscore].
Defined.

(** ** Sharing of the issues array *)

(** The base result built for ["not a url"] has its issues array changed
    by the aggregation, and the returned object holds that same array. *)
Lemma C7_base_issues_mutated_counterexample :
  @analyzeUrl plain_platform "not a url" []
  = (Normal (mkAnalysis (Num 20) 0%nat SAFE None), [["Malformed URL"]])
  /\ [["Malformed URL"]] !! issues (mkAnalysis (Num 20) 0%nat SAFE None)
     = Some ["Malformed URL"]
  /\ (aggregateRisk (mkAnalysis (Num 20) 0%nat SAFE None) lookup_failed
        [["Malformed URL"]]).2
     !! issues (mkAnalysis (Num 20) 0%nat SAFE None)
     = Some ["Malformed URL"; "First visit to this domain"]
  /\ issues (aggregateRisk (mkAnalysis (Num 20) 0%nat SAFE None) lookup_failed
               [["Malformed URL"]]).1
     = issues (mkAnalysis (Num 20) 0%nat SAFE None)
  /\ @analyzeUrlWithHistory plain_platform "not a url" (Some []) 0 []
     = (Normal (mkAnalysis (Num 110) 0%nat HIGH (Some lookup_failed)),
        [["Malformed URL"; "First visit to this domain"]]).
Proof. repeat split; reflexivity. Qed.

(** C7 (as amended). Every call of [analyzeUrl] allocates a new issues
    array and leaves the arrays that exist unchanged.  The aggregation
    appends the familiarity issue, if there is one, to the issues array of
    the base result in place, returns an object that holds that same
    array, and changes no other array. *)
Theorem C7_aggregation_shares_issues `{P : Platform} (base : Analysis)
    (fam : FamiliaritySnapshot) (σ : store) (old : list string)
    (Hissues : σ !! issues base = Some old) :
  issues (aggregateRisk base fam σ).1 = issues base
  /\ (aggregateRisk base fam σ).2 !! issues base
     = Some (old ++ familiarity_issue fam)
  /\ (forall l : loc, l <> issues base ->
        (aggregateRisk base fam σ).2 !! l = σ !! l)
  /\ length (aggregateRisk base fam σ).2 = length σ
  /\ (forall (u : string) (σ0 : store), exists a arr,
        analyzeUrl u σ0 = (Normal a, σ0 ++ [arr])
        /\ issues a = length σ0 /\ σ0 !! issues a = None).
Proof.
  split; [unfold aggregateRisk; now destruct (firstVisit fam) |].
  rewrite aggregateRisk_store. unfold familiarity_issue. repeat split.
  - destruct (firstVisit fam); [now apply array_push_lookup |].
    destruct (num_gtb _ 70); [now apply array_push_lookup |].
    now rewrite app_nil_r.
  - intros l Hl. destruct (firstVisit fam); [now apply array_push_lookup_ne |].
    destruct (num_gtb _ 70); [now apply array_push_lookup_ne | reflexivity].
  - unfold array_push. destruct (firstVisit fam); [apply length_alter |].
    destruct (num_gtb _ 70); [apply length_alter | reflexivity].
  - intros u σ0. destruct (URL_new u) as [o|] eqn:Hu.
    + rewrite (analyzeUrl_parsed u o σ0 Hu). do 2 eexists.
      split; [reflexivity |]. split; [reflexivity |].
      apply lookup_ge_None_2. simpl. lia.
    + rewrite (analyzeUrl_malformed u σ0 Hu). do 2 eexists.
      split; [reflexivity |]. split; [reflexivity |].
      apply lookup_ge_None_2. simpl. lia.
Qed.

Lemma C7_aggregation_shares_issues_witness :
  [["Malformed URL"]; ["other"]] !! issues (mkAnalysis (Num 20) 0%nat SAFE None)
  = Some ["Malformed URL"]
  /\ (aggregateRisk (mkAnalysis (Num 20) 0%nat SAFE None) lookup_failed
        [["Malformed URL"]; ["other"]]).2 !! 0%nat
     = Some ["Malformed URL"; "First visit to this domain"]
  /\ (aggregateRisk (mkAnalysis (Num 20) 0%nat SAFE None) lookup_failed
        [["Malformed URL"]; ["other"]]).2 !! 1%nat
     = Some ["other"].
Proof.
  split; [reflexivity |].
  destruct (@C7_aggregation_shares_issues plain_platform
              (mkAnalysis (Num 20) 0%nat SAFE None) lookup_failed
              [["Malformed URL"]; ["other"]] ["Malformed URL"] eq_refl)
    as (_ & Hsame & Hother & _).
  split; [exact Hsame | exact (Hother 1%nat ltac:(discriminate))].
Defined.

(** ** The content script: brand impersonation *)

Module ContentFacts.
Import Content.

(** The loop that sets [brandInDomain] asks whether some collected brand,
    with its first space removed, is part of the host. *)
Lemma brandInDomain_existsb (domain : string) (found : list string) :
  brandInDomain domain found
  = existsb (fun brand => includes domain (replace brand " " "")) found.
Proof.
  unfold brandInDomain.
  assert (H : forall acc,
            fold_left (fun b brand =>
              if includes domain (replace brand " " "") then true else b) found acc
            = acc || existsb (fun brand => includes domain (replace brand " " "")) found).
  { induction found as [|x l IH]; intros acc; simpl.
    - now rewrite orb_false_r.
    - rewrite IH. destruct (includes domain (replace x " " "")), acc; reflexivity. }
  now rewrite H.
Qed.

(** What [analyzePageContent] adds after the urgency phrases. *)
Lemma analyzePageContent_brands (page : Page) :
  let found := collectBrands (images page) in
  let before := issues (analyzePageContent (mkPage (innerText page) [] (hostname page))) in
  if (0 <? length found)%nat
     && negb (brandInDomain (toLowerCase (hostname page)) found)
  then brandImpersonation (analyzePageContent page) = true
       /\ issues (analyzePageContent page)
          = before ++ ["Potential impersonation of: " +:+ join ", " found]
  else issues (analyzePageContent page) = before.
Proof.
  unfold analyzePageContent. cbn [images innerText hostname collectBrands fold_left].
  change (0 <? @length string [])%nat with false. cbv iota.
  destruct (0 <? length (collectBrands (images page)))%nat; [| reflexivity].
  destruct (brandInDomain _ _); simpl; [reflexivity | split; reflexivity].
Qed.

End ContentFacts.

(** C9, at the input where the code departs from it.  On the page of host
    [www.bankofamerica.com] with one image whose alternative text is
    [Bank of America], the brand [bank of america] is collected and its
    space-stripped name is part of the host, yet the page is marked as an
    impersonation and the issue is emitted: the loop removes only the
    first space of the name. *)
Theorem C9_bank_of_america_flagged :
  Content.collectBrands
    [Content.mkImage "Bank of America" "https://www.bankofamerica.com/logo.png"]
  = ["bank of america"]
  /\ brand_in_host "www.bankofamerica.com" "bank of america" = true
  /\ replace "bank of america" " " "" = "bankof america"
  /\ Content.analyzePageContent
       (Content.mkPage ""
          [Content.mkImage "Bank of America" "https://www.bankofamerica.com/logo.png"]
          "www.bankofamerica.com")
     = Content.mkContentAnalysis false true false false
         ["Potential impersonation of: bank of america"].
Proof. repeat split; vm_compute; reflexivity. Qed.

(** Where the claim of C9 and the code agree: a brand found on two images
    is listed twice, all collected brands are joined in one issue, and a
    brand named in the host silences the issue. *)
Example collected_brands_keep_duplicates :
  Content.analyzePageContent
    (Content.mkPage ""
       [Content.mkImage "PayPal" "/img/a.png"; Content.mkImage "" "/img/paypal.png";
        Content.mkImage "Wells Fargo" ""]
       "secure-payments.example")
  = Content.mkContentAnalysis false true false false
      ["Potential impersonation of: paypal, paypal, wells fargo"]
  /\ Content.analyzePageContent
       (Content.mkPage ""
          [Content.mkImage "PayPal" "/img/a.png"; Content.mkImage "Wells Fargo" ""]
          "www.wellsfargo.com")
     = Content.mkContentAnalysis false false false false [].
Proof. split; vm_compute; reflexivity. Qed.

(** * Further properties of the scripts *)

(** ** The raw score and the issues of [analyzeUrl] *)

Lemma url_hits_weights (u : string) (o : URL) :
  Forall (fun h : hit => 5 <= h.1 <= 40 /\ h.1 mod 5 = 0) (url_hits u o).
Proof.
  unfold url_hits, other_hits, hit_if.
  repeat (apply Forall_app; split);
    try (match goal with |- context [if ?b then _ else _] => destruct b end;
         repeat constructor; simpl; lia);
    apply List.Forall_map, List.Forall_forall; intros x _; simpl;
    repeat split; lia.
Qed.

Lemma total_weights (hits : list hit) :
  Forall (fun h : hit => 5 <= h.1 <= 40 /\ h.1 mod 5 = 0) hits ->
  5 * Z.of_nat (length hits) <= total hits <= 40 * Z.of_nat (length hits)
  /\ total hits mod 5 = 0.
Proof.
  unfold total. induction 1 as [|h l [Hh Hm] _ IH]; [simpl; split; [lia | reflexivity] |].
  cbn [map fold_right length]. destruct IH as [IH1 IH2]. split; [lia |].
  rewrite Z.add_mod, Hm, IH2 by lia. reflexivity.
Qed.

(** [analyzeUrl] in one equation: the score [z], the level the mapping
    gives for it, and the new array [arr] of issues. *)
Lemma analyzeUrl_run `{P : Platform} (u : string) (σ : store) :
  exists (z : Z) (arr : list string),
    analyzeUrl u σ
    = (Normal (mkAnalysis (Num z) (length σ) (riskLevel_spec z) None), σ ++ [arr])
    /\ 5 * Z.of_nat (length arr) <= z <= 40 * Z.of_nat (length arr)
    /\ z mod 5 = 0.
Proof.
  destruct (URL_new u) as [o|] eqn:Hu.
  - rewrite (analyzeUrl_parsed u o σ Hu).
    destruct (total_weights _ (url_hits_weights u o)) as [Hb Hm].
    exists (total (url_hits u o)), (map snd (url_hits u o)).
    rewrite List.length_map. auto.
  - rewrite (analyzeUrl_malformed u σ Hu).
    exists 20, ["Malformed URL"]. cbn [length]. split; [reflexivity |].
    split; [lia | reflexivity].
Qed.

(** X1. For every input, the score of [analyzeUrl] is a multiple of 5 that
    lies between 5 times and 40 times the number of issues it reports; so
    the score is 0 exactly when no issue is reported, and a result with at
    most one issue is never above LOW. *)
Theorem analyzeUrl_score_and_issues `{P : Platform} (u : string) (σ : store) :
  exists (a : Analysis) (arr : list string) (z : Z),
    analyzeUrl u σ = (Normal a, σ ++ [arr])
    /\ score a = Num z
    /\ 5 * Z.of_nat (length arr) <= z <= 40 * Z.of_nat (length arr)
    /\ z mod 5 = 0
    /\ (z = 0 <-> arr = [])
    /\ ((length arr <= 1)%nat -> riskLevel a = SAFE \/ riskLevel a = LOW).
Proof.
  destruct (analyzeUrl_run u σ) as (z & arr & Hrun & Hb & Hm).
  eexists _, arr, z. split; [exact Hrun |]. cbn [score riskLevel].
  split; [reflexivity |]. split; [exact Hb |]. split; [exact Hm |]. split; [split |].
  - intros Hz. destruct arr; [reflexivity |]. cbn [length] in Hb. lia.
  - intros ->. simpl in Hb. lia.
  - intros Hl. unfold riskLevel_spec.
    destruct (Z.leb_spec 80 z); [lia |].
    destruct (Z.leb_spec 60 z); [lia |].
    destruct (30 <=? z); auto.
Qed.

Lemma analyzeUrl_score_and_issues_witness :
  exists a : Analysis,
    @analyzeUrl plain_platform "not a url" [] = (Normal a, [["Malformed URL"]])
    /\ (riskLevel a = SAFE \/ riskLevel a = LOW).
Proof.
  destruct (@analyzeUrl_score_and_issues plain_platform "not a url" [])
    as (a & arr & z & Hrun & _ & _ & _ & _ & Hl).
  assert (Harr : arr = ["Malformed URL"]).
  { vm_compute in Hrun. now injection Hrun as _ <-. }
  subst arr. exists a. split; [exact Hrun |]. apply Hl. simpl. lia.
Defined.


(** ** The history adjustment end to end *)

Lemma aggregateRisk_eq (base : Analysis) (fam : FamiliaritySnapshot) (σ : store) :
  aggregateRisk base fam σ
  = ((aggregateRisk base fam σ).1,
     if firstVisit fam then
       array_push (issues base) "First visit to this domain" σ
     else if num_gtb (num_of_field (familiarityScore fam)) 70 then
       array_push (issues base)
         ("Frequently visited site (" +:+ pretty (visitCount fam) +:+ " visits)") σ
     else σ).
Proof. rewrite <- aggregateRisk_store. now destruct (aggregateRisk base fam σ). Qed.

Lemma aggregateRisk_fresh (base : Analysis) (fam : FamiliaritySnapshot)
    (σ : store) (arr : list string) :
  issues base = length σ ->
  (aggregateRisk base fam (σ ++ [arr])).2 = σ ++ [arr ++ familiarity_issue fam].
Proof.
  intros Hl. rewrite aggregateRisk_store, Hl. unfold familiarity_issue.
  destruct (firstVisit fam); [apply array_push_last |].
  destruct (num_gtb _ 70); [apply array_push_last | now rewrite app_nil_r].
Qed.

(** [analyzeUrlWithHistory] in terms of [analyzeUrl] and the snapshot. *)
Lemma analyzeUrlWithHistory_run `{P : Platform} (u : string)
    (search : option (list HistoryItem)) (now : Z) (σ : store) :
  exists (base r : Analysis) (arr : list string),
    analyzeUrl u σ = (Normal base, σ ++ [arr])
    /\ analyzeUrlWithHistory u search now σ
       = (Normal r,
          σ ++ [arr ++ familiarity_issue (checkBrowserHistory u search now)])
    /\ issues r = length σ
    /\ familiarity r = Some (checkBrowserHistory u search now)
    /\ (length (familiarity_issue (checkBrowserHistory u search now)) <= 1)%nat.
Proof.
  destruct (analyzeUrl_run u σ) as (z & arr & Hrun & _).
  unfold analyzeUrlWithHistory. rewrite Hrun.
  set (fam := checkBrowserHistory u search now).
  set (base := mkAnalysis (Num z) (length σ) (riskLevel_spec z) None).
  pose proof (aggregateRisk_fresh base fam σ arr eq_refl) as Hs.
  destruct (aggregateRisk base fam (σ ++ [arr])) as [r σ2] eqn:Hr.
  simpl in Hs. subst σ2.
  exists base, r, arr. split; [reflexivity |]. split; [reflexivity |].
  assert (Hr1 : r = (aggregateRisk base fam (σ ++ [arr])).1) by now rewrite Hr.
  split; [| split].
  - rewrite Hr1. unfold aggregateRisk. now destruct (firstVisit fam).
  - rewrite Hr1. unfold aggregateRisk. now destruct (firstVisit fam).
  - unfold familiarity_issue. destruct (firstVisit fam); [simpl; lia |].
    destruct (num_gtb _ 70); simpl; lia.
Qed.

(** X2. [analyzeUrlWithHistory] never throws and reports the issues of
    [analyzeUrl] followed by at most one familiarity issue, in the one
    array [analyzeUrl] allocated; the result carries the snapshot of
    [checkBrowserHistory]. *)
Theorem analyzeUrlWithHistory_issues `{P : Platform} (u : string)
    (search : option (list HistoryItem)) (now : Z) (σ : store) :
  exists (base r : Analysis) (arr : list string),
    analyzeUrl u σ = (Normal base, σ ++ [arr])
    /\ analyzeUrlWithHistory u search now σ
       = (Normal r,
          σ ++ [arr ++ familiarity_issue (checkBrowserHistory u search now)])
    /\ issues r = length σ
    /\ familiarity r = Some (checkBrowserHistory u search now)
    /\ (length (familiarity_issue (checkBrowserHistory u search now)) <= 1)%nat.
Proof. apply analyzeUrlWithHistory_run. Qed.

Lemma first_visit_run `{P : Platform} (u : string)
    (search : option (list HistoryItem)) (now : Z) (σ : store) :
  firstVisit (checkBrowserHistory u search now) = true ->
  exists (a : Analysis) (σ' : store) (z : Z),
    analyzeUrlWithHistory u search now σ = (Normal a, σ')
    /\ score a = Num z /\ 90 <= z /\ riskLevel a = HIGH.
Proof.
  intros Hfirst.
  destruct (analyzeUrl_run u σ) as (b & arr & Hrun & Hb & _).
  unfold analyzeUrlWithHistory. rewrite Hrun.
  destruct (aggregateRisk _ _ _) as [r σ2] eqn:Hr.
  assert (Hr1 : r = (aggregateRisk
                       (mkAnalysis (Num b) (length σ) (riskLevel_spec b) None)
                       (checkBrowserHistory u search now) (σ ++ [arr])).1)
    by now rewrite Hr.
  assert (Hs : score r = Num (b + 90)).
  { rewrite Hr1. unfold aggregateRisk. now rewrite Hfirst. }
  exists r, σ2, (b + 90). split; [reflexivity |].
  split; [exact Hs |]. split; [lia |].
  rewrite Hr1 in Hs |- *. rewrite (aggregateRisk_level _ _ _ _ Hs).
  apply riskLevel_spec_bands. lia.
Qed.

(** X3. Whenever the snapshot says first visit (no matching history, or a
    failed lookup), [analyzeUrlWithHistory] returns a score of at least 90
    and the level HIGH, whatever the URL. *)
Theorem first_visit_is_HIGH `{P : Platform} (u : string)
    (search : option (list HistoryItem)) (now : Z) (σ : store)
    (Hfirst : firstVisit (checkBrowserHistory u search now) = true) :
  exists (a : Analysis) (σ' : store) (z : Z),
    analyzeUrlWithHistory u search now σ = (Normal a, σ')
    /\ score a = Num z /\ 90 <= z /\ riskLevel a = HIGH.
Proof. now apply first_visit_run. Qed.

Lemma first_visit_is_HIGH_witness :
  firstVisit (@checkBrowserHistory plain_platform "https://example.com/"
                (Some [mkHistoryItem "https://other.org/" 5]) 10) = true
  /\ exists (a : Analysis) (σ' : store),
       @analyzeUrlWithHistory plain_platform "https://example.com/"
         (Some [mkHistoryItem "https://other.org/" 5]) 10 [] = (Normal a, σ')
       /\ riskLevel a = HIGH.
Proof.
  split; [reflexivity |].
  destruct (@first_visit_is_HIGH plain_platform "https://example.com/"
              (Some [mkHistoryItem "https://other.org/" 5]) 10 [] eq_refl)
    as (a & σ' & z & Hrun & _ & _ & Hl).
  exists a, σ'. split; [exact Hrun | exact Hl].
Defined.

(** X4. For a site that is not a first visit, with a non-negative base
    score and familiarity score, the adjusted score lies between 0 and the
    base score (and within 25 of it when the familiarity score is at most
    100), and the level is never above the level of the base score. *)
Theorem familiar_site_never_raises (base : Analysis) (fam : FamiliaritySnapshot)
    (σ : store) (b fs : Z)
    (Hscore : score base = Num b) (Hb : 0 <= b)
    (Hfam : firstVisit fam = false)
    (Hfs : familiarityScore fam = Some fs) (Hpos : 0 <= fs) :
  exists z : Z,
    score (aggregateRisk base fam σ).1 = Num z
    /\ 0 <= z <= b
    /\ (fs <= 100 -> b - 25 <= z)
    /\ rank (riskLevel (aggregateRisk base fam σ).1) <= rank (riskLevel_spec b).
Proof.
  exists (Z.max (b - fs / 4) 0).
  assert (Hq : 0 <= fs / 4) by (apply Z.div_pos; lia).
  assert (Hs : score (aggregateRisk base fam σ).1 = Num (Z.max (b - fs / 4) 0)).
  { unfold aggregateRisk. rewrite Hfam, Hscore, Hfs. reflexivity. }
  split; [exact Hs |]. split; [lia |]. split.
  - intros Hle. assert (fs / 4 <= 25) by (apply Z.div_le_upper_bound; lia). lia.
  - rewrite (aggregateRisk_level base fam σ _ Hs).
    apply riskLevel_spec_mono. lia.
Qed.

Lemma familiar_site_never_raises_witness :
  exists z : Z,
    score (aggregateRisk (mkAnalysis (Num 60) 0%nat MEDIUM None)
             (mkSnapshot true false 3 (Some 2) (Some 62) false) [[]]).1 = Num z
    /\ 0 <= z <= 60.
Proof.
  destruct (familiar_site_never_raises (mkAnalysis (Num 60) 0%nat MEDIUM None)
              (mkSnapshot true false 3 (Some 2) (Some 62) false) [[]] 60 62
              eq_refl ltac:(lia) eq_refl eq_refl ltac:(lia))
    as (z & Hs & Hz & _).
  exists z. split; [exact Hs | exact Hz].
Defined.

(** ** The familiarity snapshot *)

Lemma fold_left_max_spec (r : list Z) (x : Z) :
  In (fold_left Z.max r x) (x :: r)
  /\ Forall (fun t => t <= fold_left Z.max r x) (x :: r).
Proof.
  revert x; induction r as [|y r IH]; intros x; simpl.
  - split; [now left | repeat constructor; lia].
  - destruct (IH (Z.max x y)) as [Hin Hall]. split.
    + destruct Hin as [Hin | Hin]; [| right; right; exact Hin].
      destruct (Z.max_spec x y) as [[_ Hm] | [_ Hm]].
      * right; left. now rewrite <- Hin.
      * left. now rewrite <- Hin.
    + inversion Hall as [|? ? Hhd Htl]; subst.
      constructor; [lia |]. constructor; [lia | exact Htl].
Qed.

(** [Math_max] of a non-empty list is its greatest element. *)
Lemma Math_max_spec (l : list Z) :
  l <> [] -> In (Math_max l) l /\ Forall (fun t => t <= Math_max l) l.
Proof. destruct l as [|x r]; [congruence | intros _; apply fold_left_max_spec]. Qed.

Lemma Math_max_Permutation (l l' : list Z) :
  Permutation l l' -> Math_max l = Math_max l'.
Proof.
  intros Hp. destruct l as [|x r].
  - apply Permutation_nil in Hp. now subst.
  - assert (Hl' : l' <> []).
    { intros ->. symmetry in Hp. now apply Permutation_nil in Hp. }
    destruct (Math_max_spec (x :: r)) as [Hin Hall]; [discriminate |].
    destruct (Math_max_spec l' Hl') as [Hin' Hall'].
    rewrite List.Forall_forall in Hall, Hall'.
    apply Z.le_antisymm.
    + apply Hall'. now apply (Permutation_in _ Hp).
    + apply Hall. apply (Permutation_in _ (Permutation_sym Hp)). exact Hin'.
Qed.

Lemma filter_Permutation' {A : Type} (f : A -> bool) (l l' : list A) :
  Permutation l l' -> Permutation (List.filter f l) (List.filter f l').
Proof.
  induction 1 as [| x l l' _ IH | x y l | l l' l'' _ IH1 _ IH2]; simpl.
  - constructor.
  - destruct (f x); [now constructor | exact IH].
  - destruct (f x), (f y); try reflexivity. constructor.
  - now transitivity (List.filter f l').
Qed.

(** The snapshot for a URL that parses and a query that answers, in terms
    of the matching items. *)
Lemma checkBrowserHistory_matching `{P : Platform} (u : string) (o : URL)
    (items : list HistoryItem) (now : Z) :
  URL_new u = Some o ->
  checkBrowserHistory u (Some items) now
  = match matching (Background.hostname o) items with
    | [] => mkSnapshot false true 0 (Some 0) (Some 0) false
    | m =>
        let d := (now - Math_max (map lastVisitTime m)) / 86400000 in
        mkSnapshot true false (Z.of_nat (length m)) (Some d)
          (Some (Z.min (Z.of_nat (length m)) 20 * 2 + Z.max (60 - d * 2) 0))
          false
    end.
Proof.
  intros Hu. unfold checkBrowserHistory. rewrite Hu.
  fold (matching (Background.hostname o) items).
  destruct (matching (Background.hostname o) items) as [|i m]; [reflexivity |].
  change (Nat.eqb (length (i :: m)) 0) with false. cbv iota zeta.
  change (24 * 60 * 60 * 1000) with 86400000.
  set (d := (now - Math_max (map lastVisitTime (i :: m))) / 86400000).
  replace (if d =? 0 then 60 else Z.max (60 - d * 2) 0) with (Z.max (60 - d * 2) 0)
    by (destruct (Z.eqb_spec d 0) as [-> |]; reflexivity).
  reflexivity.
Qed.

(** X5. In every snapshot [familiar] is the negation of [firstVisit]; the
    [error] flag is set exactly when the URL does not parse or the history
    query fails; [familiar] holds exactly when some history item matches;
    the visit count is 0 when not familiar and at least 1 when familiar. *)
Theorem checkBrowserHistory_flags `{P : Platform} (u : string)
    (search : option (list HistoryItem)) (now : Z) :
  familiar (checkBrowserHistory u search now)
  = negb (firstVisit (checkBrowserHistory u search now))
  /\ (error (checkBrowserHistory u search now) = true
      <-> URL_new u = None \/ search = None)
  /\ (familiar (checkBrowserHistory u search now) = true
      <-> exists o items, URL_new u = Some o /\ search = Some items
                          /\ matching (Background.hostname o) items <> [])
  /\ (familiar (checkBrowserHistory u search now) = false ->
      visitCount (checkBrowserHistory u search now) = 0)
  /\ (familiar (checkBrowserHistory u search now) = true ->
      1 <= visitCount (checkBrowserHistory u search now)).
Proof.
  destruct (URL_new u) as [o|] eqn:Hu.
  2:{ unfold checkBrowserHistory. rewrite Hu. simpl. repeat split; auto;
        try discriminate. intros (o & items & Ho & _). discriminate. }
  destruct search as [items|].
  2:{ unfold checkBrowserHistory. rewrite Hu. simpl. repeat split; auto;
        try discriminate. intros (o' & items & _ & Hs & _). discriminate. }
  rewrite (checkBrowserHistory_matching u o items now Hu).
  destruct (matching (Background.hostname o) items) as [|i m] eqn:Hm; simpl.
  - repeat split; auto; try discriminate.
    + intros [H | H]; discriminate.
    + intros (o' & items' & Ho & Hs & Hne).
      injection Ho as <-. injection Hs as <-. congruence.
  - repeat split; auto; try discriminate; try lia.
    + intros [H | H]; discriminate.
    + intros _. exists o, items. rewrite Hm. repeat split. discriminate.
Qed.

Lemma checkBrowserHistory_flags_witness :
  visitCount (@checkBrowserHistory plain_platform "not a url" None 0) = 0.
Proof.
  destruct (@checkBrowserHistory_flags plain_platform "not a url" None 0)
    as (_ & _ & _ & H & _).
  apply H. reflexivity.
Defined.


(** X6. The snapshot does not depend on the order in which the history
    query returns its items. *)
Theorem checkBrowserHistory_Permutation `{P : Platform} (u : string)
    (items items' : list HistoryItem) (now : Z)
    (Hperm : Permutation items items') :
  checkBrowserHistory u (Some items) now = checkBrowserHistory u (Some items') now.
Proof.
  destruct (URL_new u) as [o|] eqn:Hu.
  2:{ unfold checkBrowserHistory. now rewrite Hu. }
  rewrite !(checkBrowserHistory_matching u o _ now Hu).
  assert (Hm : Permutation (matching (Background.hostname o) items)
                           (matching (Background.hostname o) items'))
    by now apply filter_Permutation'.
  destruct (matching (Background.hostname o) items) as [|i m] eqn:E1.
  - apply Permutation_nil in Hm. now rewrite Hm.
  - destruct (matching (Background.hostname o) items') as [|i' m'] eqn:E2.
    + symmetry in Hm. now apply Permutation_nil in Hm.
    + cbv zeta. rewrite (Permutation_length Hm).
      rewrite (Math_max_Permutation _ _ (Permutation_map lastVisitTime Hm)).
      reflexivity.
Qed.

Lemma checkBrowserHistory_Permutation_witness :
  @checkBrowserHistory plain_platform "https://example.com/"
    (Some [mkHistoryItem "https://example.com/a" 7;
           mkHistoryItem "https://www.example.com/" 9]) 100
  = @checkBrowserHistory plain_platform "https://example.com/"
      (Some [mkHistoryItem "https://www.example.com/" 9;
             mkHistoryItem "https://example.com/a" 7]) 100.
Proof.
  apply (@checkBrowserHistory_Permutation plain_platform). apply perm_swap.
Defined.

(** X7. A history item whose URL does not parse, or whose host does not
    match, is skipped: the snapshot is the one without it, and the lookup
    is not reported as failed. *)
Theorem checkBrowserHistory_skips `{P : Platform} (u : string) (o : URL)
    (item : HistoryItem) (before after : list HistoryItem) (now : Z)
    (Hu : URL_new u = Some o)
    (Hskip : URL_new (url item) = None
             \/ exists io, URL_new (url item) = Some io
                  /\ isMatch (Background.hostname io) (Background.hostname o) = false) :
  checkBrowserHistory u (Some (before ++ item :: after)) now
  = checkBrowserHistory u (Some (before ++ after)) now
  /\ error (checkBrowserHistory u (Some (before ++ item :: after)) now) = false.
Proof.
  rewrite !(checkBrowserHistory_matching u o _ now Hu).
  unfold matching. rewrite !List.filter_app. cbn [List.filter].
  replace (match URL_new (url item) with
           | Some itemObj => isMatch (Background.hostname itemObj) (Background.hostname o)
           | None => false
           end) with false
    by (destruct Hskip as [-> | (io & -> & ->)]; reflexivity).
  split; [reflexivity |].
  destruct (_ ++ _); reflexivity.
Qed.

Lemma checkBrowserHistory_skips_witness :
  @checkBrowserHistory plain_platform "https://example.com/"
    (Some ([mkHistoryItem "https://example.com/a" 7]
           ++ mkHistoryItem "not a url" 50 :: [])) 100
  = @checkBrowserHistory plain_platform "https://example.com/"
      (Some ([mkHistoryItem "https://example.com/a" 7] ++ [])) 100.
Proof.
  exact (proj1 (@checkBrowserHistory_skips plain_platform "https://example.com/"
                  (mkURL "example.com" "/") (mkHistoryItem "not a url" 50)
                  [mkHistoryItem "https://example.com/a" 7] [] 100 eq_refl
                  (or_introl eq_refl))).
Defined.

(** ** What the patterns test *)

Import SpecPatterns.

Lemma SUSPICIOUS_PATTERNS_eq :
  SUSPICIOUS_PATTERNS
  = map literal pattern_words ++ [digit_run_pattern; long_alnum_pattern].
Proof. reflexivity. Qed.

Lemma Matches_Star_Class (p : ascii -> bool) (w : string) :
  Matches (Star (Class p)) w <-> all_chars p w = true.
Proof.
  split.
  - intros H. remember (Star (Class p)) as r eqn:Hr.
    induction H as [| | | | | | r0 x v Hx _ Hv IHv]; try discriminate; [reflexivity |].
    injection Hr as ->. apply Matches_Class in Hx as (a & -> & Ha).
    rewrite all_chars_append. simpl. now rewrite Ha, IHv.
  - induction w as [|a w IH]; simpl; intros H; [constructor |].
    apply andb_true_iff in H as [Ha Hw].
    change (String a w) with (String a "" +:+ w).
    constructor; [now constructor | now apply IH].
Qed.

Lemma split_at (k : nat) (x : string) :
  (k <= String.length x)%nat ->
  exists u v, x = u +:+ v /\ String.length u = k.
Proof.
  revert x; induction k as [|k IHk]; intros x Hx.
  - now exists "", x.
  - destruct x as [|a x]; [simpl in Hx; lia |].
    destruct (IHk x) as (u & v & -> & Hu); [simpl in Hx; lia |].
    exists (String a u), v. split; [reflexivity | simpl; now rewrite Hu].
Qed.

Lemma Matches_at_least_Class (n : nat) (p : ascii -> bool) (w : string) :
  Matches (at_least n (Class p)) w
  <-> (n <= String.length w)%nat /\ all_chars p w = true.
Proof.
  unfold at_least. rewrite Matches_Cat. split.
  - intros (x & v & -> & Hx & Hv).
    apply Matches_rep_Class in Hx as [Hl Hx]. apply Matches_Star_Class in Hv.
    rewrite length_append, all_chars_append, Hx, Hv. split; [lia | reflexivity].
  - intros [Hl Hw]. destruct (split_at n w Hl) as (x & v & -> & Hx).
    rewrite all_chars_append in Hw. apply andb_true_iff in Hw as [Hwx Hwv].
    exists x, v. repeat split.
    + now apply Matches_rep_Class.
    + now apply Matches_Star_Class.
Qed.

Lemma test_digit_run (s : string) :
  test digit_run_pattern s = true <-> has_run is_digit 5 s.
Proof.
  unfold test, digit_run_pattern, lang, unanchored, digit, has_run.
  rewrite matchesb_Matches, Matches_Cat. split.
  - intros (x & v & -> & _ & Hv).
    apply Matches_Cat in Hv as (m & y & -> & Hm & _).
    apply Matches_at_least_Class in Hm as [Hl Hm].
    destruct (split_at 5 m Hl) as (m1 & m2 & -> & Hm1).
    rewrite all_chars_append in Hm. apply andb_true_iff in Hm as [Hm1d _].
    exists x, m1, (m2 +:+ y). rewrite append_assoc. auto.
  - intros (x & m & y & -> & Hl & Hm). exists x, (m +:+ y). repeat split.
    + apply Matches_Star_any.
    + apply MCat; [| apply Matches_Star_any].
      apply Matches_at_least_Class. split; [lia | exact Hm].
Qed.

Lemma test_long_alnum (s : string) :
  test long_alnum_pattern s = true
  <-> (25 <= String.length s)%nat /\ all_chars is_alnum s = true.
Proof.
  unfold test, long_alnum_pattern, lang, anchored, alnum.
  rewrite matchesb_Matches. apply Matches_at_least_Class.
Qed.

(** X8. The seventeen patterns: fifteen are words, and a word pattern
    tests for the word as a substring; the pattern of five digits tests for
    five consecutive decimal digits anywhere; the long alphanumeric pattern
    tests that the whole string is at least 25 letters or digits. *)
Theorem patterns_meaning (s : string) :
  SUSPICIOUS_PATTERNS
  = map literal pattern_words ++ [digit_run_pattern; long_alnum_pattern]
  /\ (forall w : string, test (literal w) s = includes s w)
  /\ (test digit_run_pattern s = true <-> has_run is_digit 5 s)
  /\ (test long_alnum_pattern s = true
      <-> (25 <= String.length s)%nat /\ all_chars is_alnum s = true).
Proof.
  split; [reflexivity |]. split; [intros w; apply test_literal |].
  split; [apply test_digit_run | apply test_long_alnum].
Qed.



(** ** Hosts that are IP literals *)

Lemma count_matches_append (c : ascii) (s t : string) :
  count_matches c (s +:+ t) = (count_matches c s + count_matches c t)%nat.
Proof. induction s as [|a s IH]; simpl; [reflexivity | rewrite IH; lia]. Qed.

Lemma count_matches_free (c : ascii) (s : string) :
  free_of c s = true -> count_matches c s = 0%nat.
Proof.
  unfold free_of. induction s as [|a s IH]; simpl; [reflexivity |].
  intros H. apply andb_true_iff in H as [Ha Hs].
  apply negb_true_iff in Ha. now rewrite Ha, IH.
Qed.

Lemma all_chars_impl (p q : ascii -> bool) (s : string) :
  (forall a, p a = true -> q a = true) ->
  all_chars p s = true -> all_chars q s = true.
Proof.
  intros Hpq. induction s as [|a s IH]; simpl; [reflexivity |].
  intros H. apply andb_true_iff in H as [Ha Hs]. now rewrite (Hpq a Ha), IH.
Qed.

Lemma split_free (c : ascii) (s : string) :
  free_of c s = true -> split c s = [s].
Proof.
  unfold free_of. induction s as [|a s IH]; simpl; [reflexivity |].
  intros H. apply andb_true_iff in H as [Ha Hs].
  apply negb_true_iff in Ha. now rewrite Ha, IH.
Qed.

Lemma split_append_sep (c : ascii) (s r : string) :
  free_of c s = true -> split c (s +:+ String c r) = s :: split c r.
Proof.
  unfold free_of. induction s as [|a s IH]; simpl; intros H.
  - now rewrite Ascii.eqb_refl.
  - apply andb_true_iff in H as [Ha Hs].
    apply negb_true_iff in Ha. now rewrite Ha, IH.
Qed.

Lemma toLowerCase_digits (s : string) :
  all_chars is_digit s = true -> toLowerCase s = s.
Proof.
  induction s as [|a s IH]; simpl; [reflexivity |].
  intros H. apply andb_true_iff in H as [Ha Hs]. rewrite IH by exact Hs.
  f_equal. unfold lower_ascii. unfold is_digit in Ha.
  apply andb_true_iff in Ha as [_ Ha]. apply Nat.leb_le in Ha.
  replace (Nat.leb 65 (nat_of_ascii a)) with false; [reflexivity |].
  symmetry. apply Nat.leb_gt. lia.
Qed.

(** A string whose characters all satisfy [p] has no factor that starts
    with a character outside [p]. *)
Lemma includes_outside (p : ascii -> bool) (s : string) (c : ascii) (t : string) :
  all_chars p s = true -> p c = false -> includes s (String c t) = false.
Proof.
  intros Hs Hc. destruct (includes s (String c t)) eqn:Hi; [| reflexivity].
  apply includes_spec in Hi as (x & y & ->).
  rewrite all_chars_append in Hs. apply andb_true_iff in Hs as [_ Hs].
  simpl in Hs. rewrite Hc in Hs. discriminate.
Qed.

(** A dot-free prefix of [a.r] is a prefix of [a]. *)
Lemma free_prefix (c : ascii) (m y a r : string) :
  free_of c m = true -> m +:+ y = a +:+ String c r -> exists y', a = m +:+ y'.
Proof.
  unfold free_of. revert a; induction m as [|b m IH]; intros a Hm E; [now exists a |].
  simpl in Hm. apply andb_true_iff in Hm as [Hb Hm]. apply negb_true_iff in Hb.
  destruct a as [|a0 a]; simpl in E.
  - injection E as -> _. rewrite Ascii.eqb_refl in Hb. discriminate.
  - injection E as -> E. destruct (IH a Hm E) as [y' ->]. now exists y'.
Qed.

(** A dot-free factor of [a.r] lies in [a] or in [r]. *)
Lemma free_factor (c : ascii) (x m y a r : string) :
  free_of c m = true -> x +:+ m +:+ y = a +:+ String c r ->
  (exists x' y', a = x' +:+ m +:+ y') \/ (exists x' y', r = x' +:+ m +:+ y').
Proof.
  intros Hm. revert a; induction x as [|b x IH]; intros a E.
  - simpl in E. destruct (free_prefix c m y a r Hm E) as [y' ->].
    left. now exists "", y'.
  - destruct a as [|a0 a]; simpl in E.
    + injection E as _ E. right. now exists x, y.
    + injection E as -> E. destruct (IH a E) as [(x' & y' & ->) | Hr].
      * left. now exists (String a0 x'), y'.
      * now right.
Qed.

Lemma digit_not_dot (s : string) :
  all_chars is_digit s = true -> free_of "." s = true.
Proof.
  apply all_chars_impl. intros a Ha. apply negb_true_iff.
  destruct (Ascii.eqb_spec a "."); [subst; discriminate | reflexivity].
Qed.

Lemma factor_length (x m y s : string) :
  s = x +:+ m +:+ y -> (String.length m <= String.length s)%nat.
Proof. intros ->. rewrite !length_append. lia. Qed.

Lemma digit_first_not_tld (c : ascii) (s : string) :
  is_digit c = true -> array_includes SUSPICIOUS_TLDS (String c s) = false.
Proof.
  intros Hc. unfold array_includes, SUSPICIOUS_TLDS. cbn [existsb String.eqb].
  repeat match goal with
         | |- context [Ascii.eqb c ?k] =>
             replace (Ascii.eqb c k) with false
               by (symmetry; destruct (Ascii.eqb_spec c k); [subst; discriminate | reflexivity])
         end.
  reflexivity.
Qed.

(** What the shape [d.d.d.d] entails for the host checks of [analyzeUrl]. *)
Lemma DottedQuad_facts (h : string) :
  DottedQuad h ->
  all_chars digit_or_dot h = true
  /\ (String.length h <= 15)%nat
  /\ test digit_run_pattern h = false
  /\ test long_alnum_pattern h = false
  /\ (3 <? Z.of_nat (length (split "." h)) - 2) = false
  /\ array_includes SUSPICIOUS_TLDS (toLowerCase (pop (split "." h))) = false.
Proof.
  intros (a & b & c & d & Hh & [La Da] & [Lb Db] & [Lc Dc] & [Ld Dd]).
  assert (Hdd : forall s, all_chars is_digit s = true -> all_chars digit_or_dot s = true).
  { intros s. apply all_chars_impl. intros x Hx. unfold digit_or_dot. now rewrite Hx. }
  assert (Hlen : (String.length h <= 15)%nat).
  { rewrite Hh, !length_append. simpl. lia. }
  split.
  { rewrite Hh, !all_chars_append, (Hdd a Da), (Hdd b Db), (Hdd c Dc), (Hdd d Dd).
    reflexivity. }
  split; [exact Hlen |]. split; [| split].
  - destruct (test digit_run_pattern h) eqn:Ht; [| reflexivity].
    apply test_digit_run in Ht as (x & m & y & E & Lm & Dm).
    assert (Fm : free_of "." m = true) by now apply digit_not_dot.
    assert (Hin : exists g x' y', g = x' +:+ m +:+ y' /\ (String.length g <= 3)%nat).
    { rewrite Hh in E. symmetry in E.
      destruct (free_factor "." x m y a _ Fm E) as [(x' & y' & Ea) | (x1 & y1 & E1)];
        [exists a, x', y'; split; [exact Ea | lia] |].
      symmetry in E1.
      destruct (free_factor "." x1 m y1 b _ Fm E1) as [(x' & y' & Ea) | (x2 & y2 & E2)];
        [exists b, x', y'; split; [exact Ea | lia] |].
      symmetry in E2.
      destruct (free_factor "." x2 m y2 c _ Fm E2) as [(x' & y' & Ea) | (x3 & y3 & E3)];
        [exists c, x', y'; split; [exact Ea | lia] |].
      exists d, x3, y3. split; [exact E3 | lia]. }
    destruct Hin as (g & x' & y' & Eg & Lg).
    apply factor_length in Eg. lia.
  - destruct (test long_alnum_pattern h) eqn:Ht; [| reflexivity].
    apply test_long_alnum in Ht as [Hl _]. lia.
  - assert (Hsplit : split "." h = [a; b; c; d]).
    { rewrite Hh.
      change (a +:+ "." +:+ b +:+ "." +:+ c +:+ "." +:+ d)
        with (a +:+ String "." (b +:+ String "." (c +:+ String "." d))).
      rewrite !split_append_sep by now apply digit_not_dot.
      rewrite split_free by now apply digit_not_dot. reflexivity. }
    rewrite Hsplit. cbn [pop List.last length]. split; [reflexivity |].
    rewrite (toLowerCase_digits d Dd).
    destruct d as [|d0 d']; [simpl in Ld; lia |].
    simpl in Dd. apply andb_true_iff in Dd as [Dd0 _].
    now apply digit_first_not_tld.
Qed.

(** The indicators a host of the shape [d.d.d.d] triggers. *)
Lemma ip_host_hits (u : string) (o : URL)
    (Hquad : DottedQuad (Background.hostname o)) :
  matched_patterns o
  = List.filter (fun p => test p (pathname o)) SUSPICIOUS_PATTERNS
  /\ url_hits u o
     = (40, "IP address used as hostname")
       :: map pattern_hit (matched_patterns o)
       ++ hit_if (includes u "%") 10 "URL contains encoded characters"
  /\ total (url_hits u o)
     = 40 + 10 * Z.of_nat (length (matched_patterns o))
       + (if includes u "%" then 10 else 0).
Proof.
  destruct (DottedQuad_facts _ Hquad) as (Hall & Hlen & Hrun & Hlong & Hsub & Htld).
  apply ipRegex_DottedQuad in Hquad.
  assert (Hpat : matched_patterns o
                 = List.filter (fun p => test p (pathname o)) SUSPICIOUS_PATTERNS).
  { unfold matched_patterns. apply List.filter_ext_in.
    intros p Hp. rewrite SUSPICIOUS_PATTERNS_eq in Hp.
    apply in_app_or in Hp as [Hp | [<- | [<- | []]]].
    - apply in_map_iff in Hp as (w & <- & Hw). rewrite test_literal.
      unfold pattern_words in Hw. simpl in Hw.
      repeat (destruct Hw as [<- | Hw];
              [now rewrite (includes_outside digit_or_dot _ _ _ Hall) |]).
      contradiction.
    - now rewrite Hrun.
    - now rewrite Hlong. }
  assert (Hhy : (1 <? Z.of_nat (count_matches "-" (Background.hostname o))) = false).
  { replace (count_matches "-" (Background.hostname o)) with 0%nat; [reflexivity |].
    symmetry. apply count_matches_free. unfold free_of.
    apply (all_chars_impl digit_or_dot); [| exact Hall].
    intros x Hx. unfold digit_or_dot in Hx. apply negb_true_iff.
    destruct (Ascii.eqb_spec x "-"); [subst; discriminate | reflexivity]. }
  assert (Hterms : matched_terms o = []).
  { unfold matched_terms, SECURITY_TERMS. cbn [List.filter].
    rewrite !(includes_outside digit_or_dot _ _ _ Hall) by reflexivity. reflexivity. }
  assert (Hlong' : (30 <? Z.of_nat (String.length (Background.hostname o))) = false)
    by (apply Z.ltb_ge; lia).
  split; [exact Hpat |]. split.
  - unfold url_hits, other_hits. now rewrite Hquad, Htld, Hlong', Hsub, Hhy, Hterms.
  - rewrite total_url_hits, Hquad, Htld, Hlong', Hsub, Hhy, Hterms. simpl. lia.
Qed.

Lemma map_snd_hit_if (b : bool) (w : Z) (issue : string) :
  map snd (hit_if b w issue) = if b then [issue] else [].
Proof. now destruct b. Qed.

(** X10. For a URL that parses with a host of the shape [d.d.d.d], no
    other check of the host fires in [analyzeUrl] (top-level domain,
    length, subdomains, hyphens, security terms) and no pattern matches the
    host: the issues are the IP-address one, one per pattern that matches
    the path, and the one for a percent sign, and the score is 40 plus 10
    per such pattern plus 10 for a percent sign. *)
Theorem ip_host_scoring `{P : Platform} (u : string) (o : URL) (σ : store)
    (Hparse : URL_new u = Some o)
    (Hquad : DottedQuad (Background.hostname o)) :
  exists a : Analysis,
    analyzeUrl u σ
    = (Normal a,
       σ ++ ["IP address used as hostname"
             :: map (fun p => "Suspicious pattern detected: " +:+ toString p)
                  (List.filter (fun p => test p (pathname o)) SUSPICIOUS_PATTERNS)
             ++ (if includes u "%" then ["URL contains encoded characters"]
                 else [])])
    /\ score a
       = Num (40
              + 10 * Z.of_nat
                       (length (List.filter (fun p => test p (pathname o))
                                  SUSPICIOUS_PATTERNS))
              + (if includes u "%" then 10 else 0))
    /\ issues a = length σ.
Proof.
  destruct (ip_host_hits u o Hquad) as (Hpat & Hhits & Htot).
  rewrite (analyzeUrl_parsed u o σ Hparse).
  assert (Hissues : map snd (url_hits u o)
                    = "IP address used as hostname"
                      :: map (fun p => "Suspicious pattern detected: " +:+ toString p)
                           (List.filter (fun p => test p (pathname o))
                              SUSPICIOUS_PATTERNS)
                      ++ (if includes u "%" then ["URL contains encoded characters"]
                          else [])).
  { rewrite Hhits. cbn [map snd]. rewrite List.map_app, List.map_map, map_snd_hit_if.
    now rewrite Hpat. }
  rewrite Hissues, Htot, Hpat.
  eexists. split; [reflexivity |]. split; reflexivity.
Qed.

Lemma ip_host_scoring_witness :
  @URL_new plain_platform "http://10.0.0.1/account/update"
  = Some (mkURL "10.0.0.1" "/account/update")
  /\ exists a : Analysis,
       @analyzeUrl plain_platform "http://10.0.0.1/account/update" []
       = (Normal a,
          [["IP address used as hostname";
            "Suspicious pattern detected: /account/";
            "Suspicious pattern detected: /update/"]])
       /\ score a = Num 60.
Proof.
  split; [reflexivity |].
  destruct (@ip_host_scoring plain_platform "http://10.0.0.1/account/update"
              (mkURL "10.0.0.1" "/account/update") [] eq_refl)
    as (a & Hrun & Hscore & _).
  - apply ipRegex_DottedQuad. vm_compute. reflexivity.
  - exists a. split; [exact Hrun | exact Hscore].
Defined.

(** ** Words that are both a pattern and a security term *)

Lemma In_length_pos {A : Type} (x : A) (l : list A) : In x l -> (1 <= length l)%nat.
Proof. destruct l; [contradiction | simpl; lia]. Qed.

(** The two hits of a word that is a pattern and a security term. *)
Lemma word_hits_twice (u : string) (o : URL) (w : string)
    (Hw : w = "secure" \/ w = "confirm")
    (Hin : includes (Background.hostname o) w = true) :
  In (10, "Suspicious pattern detected: /" +:+ w +:+ "/") (url_hits u o)
  /\ In (5, "Security term in domain: " +:+ dquote +:+ w +:+ dquote) (url_hits u o)
  /\ 15 <= total (url_hits u o).
Proof.
  assert (Hp : In (literal w) SUSPICIOUS_PATTERNS)
    by (destruct Hw as [-> | ->]; simpl; auto 10).
  assert (Ht : In w SECURITY_TERMS)
    by (destruct Hw as [-> | ->]; simpl; auto 10).
  assert (Htest : test (literal w) (Background.hostname o) = true)
    by now rewrite test_literal.
  split; [exact (In_pattern_hit u o (literal w) Hp Htest) |].
  split; [exact (In_term_hit u o w Ht Hin) |].
  assert (H1 : (1 <= length (matched_patterns o))%nat).
  { apply (In_length_pos (literal w)). apply List.filter_In. split; [exact Hp |].
    now rewrite Htest. }
  assert (H2 : (1 <= length (matched_terms o))%nat).
  { apply (In_length_pos w). apply List.filter_In. now split. }
  rewrite total_url_hits.
  repeat match goal with |- context [if ?b then _ else _] => destruct b end; lia.
Qed.

(** X11. The words [secure] and [confirm] are both a pattern and a
    security term: for a URL that parses with a host containing one of
    them, [analyzeUrl] reports both the pattern issue and the security-term
    issue for that word, and the score is at least 15. *)
Theorem word_counted_twice `{P : Platform} (u : string) (o : URL) (σ : store)
    (w : string)
    (Hparse : URL_new u = Some o)
    (Hw : w = "secure" \/ w = "confirm")
    (Hin : includes (Background.hostname o) w = true) :
  exists (a : Analysis) (arr : list string) (z : Z),
    analyzeUrl u σ = (Normal a, σ ++ [arr])
    /\ issues a = length σ
    /\ In ("Suspicious pattern detected: /" +:+ w +:+ "/") arr
    /\ In ("Security term in domain: " +:+ dquote +:+ w +:+ dquote) arr
    /\ score a = Num z
    /\ 15 <= z.
Proof.
  destruct (word_hits_twice u o w Hw Hin) as (Hp & Ht & Hz).
  rewrite (analyzeUrl_parsed u o σ Hparse).
  eexists _, (map snd (url_hits u o)), (total (url_hits u o)).
  split; [reflexivity |]. split; [reflexivity |].
  split; [exact (in_map snd _ _ Hp) |].
  split; [exact (in_map snd _ _ Ht) |].
  split; [reflexivity | exact Hz].
Qed.

Lemma word_counted_twice_witness :
  @URL_new plain_platform "https://my-secure-bank.example/"
  = Some (mkURL "my-secure-bank.example" "/")
  /\ exists (a : Analysis) (z : Z),
       @analyzeUrl plain_platform "https://my-secure-bank.example/" []
       = (Normal a,
          [["Multiple hyphens in domain";
            "Suspicious pattern detected: /secure/";
            "Security term in domain: " +:+ dquote +:+ "secure" +:+ dquote]])
       /\ score a = Num z /\ 15 <= z.
Proof.
  split; [reflexivity |].
  destruct (@word_counted_twice plain_platform "https://my-secure-bank.example/"
              (mkURL "my-secure-bank.example" "/") [] "secure" eq_refl
              (or_introl eq_refl) eq_refl)
    as (a & arr & z & Hrun & _ & _ & _ & Hscore & Hz).
  exists a, z. split; [| split; [exact Hscore | exact Hz]].
  assert (Harr : arr = ["Multiple hyphens in domain";
                        "Suspicious pattern detected: /secure/";
                        "Security term in domain: " +:+ dquote +:+ "secure" +:+ dquote]).
  { vm_compute in Hrun. injection Hrun as _ <-. reflexivity. }
  rewrite Hrun, Harr. reflexivity.
Defined.

(** ** One more visit *)

Lemma Math_max_cons_le (t : Z) (l : list Z) :
  l <> [] -> Math_max l <= Math_max (t :: l).
Proof.
  intros Hl. destruct (Math_max_spec l Hl) as [Hin _].
  destruct (Math_max_spec (t :: l)) as [_ Hall]; [discriminate |].
  rewrite List.Forall_forall in Hall. apply Hall. now right.
Qed.

(** X12. One more item in the history, whatever it is, never lowers the
    familiarity score. *)
Theorem one_more_visit_never_lowers `{P : Platform} (u : string) (o : URL)
    (item : HistoryItem) (items : list HistoryItem) (now : Z)
    (Hu : URL_new u = Some o) :
  exists fs fs' : Z,
    familiarityScore (checkBrowserHistory u (Some items) now) = Some fs
    /\ familiarityScore (checkBrowserHistory u (Some (item :: items)) now) = Some fs'
    /\ fs <= fs'.
Proof.
  rewrite !(checkBrowserHistory_matching u o _ now Hu).
  unfold matching at 2. cbn [List.filter]. fold (matching (Background.hostname o) items).
  destruct (match URL_new (url item) with
            | Some itemObj => isMatch (Background.hostname itemObj) (Background.hostname o)
            | None => false
            end).
  2:{ destruct (matching (Background.hostname o) items); simpl; eauto using Z.le_refl. }
  destruct (matching (Background.hostname o) items) as [|i m] eqn:Hm.
  - cbv zeta. cbn [familiarityScore length]. do 2 eexists.
    split; [reflexivity |]. split; [reflexivity |]. lia.
  - cbv zeta. cbn [familiarityScore]. do 2 eexists.
    split; [reflexivity |]. split; [reflexivity |].
    pose proof (Math_max_cons_le (lastVisitTime item) (map lastVisitTime (i :: m))
                  ltac:(discriminate)) as Hmax.
    cbn [map] in Hmax |- *.
    assert (Hd : (now - Math_max (lastVisitTime item :: lastVisitTime i :: map lastVisitTime m))
                 / 86400000
                 <= (now - Math_max (lastVisitTime i :: map lastVisitTime m)) / 86400000)
      by (apply Z.div_le_mono; lia).
    cbn [length]. lia.
Qed.

Lemma one_more_visit_never_lowers_witness :
  exists fs fs' : Z,
    familiarityScore (@checkBrowserHistory plain_platform "https://example.com/"
                        (Some [mkHistoryItem "https://example.com/a" 7]) 100) = Some fs
    /\ familiarityScore (@checkBrowserHistory plain_platform "https://example.com/"
                           (Some [mkHistoryItem "https://example.com/b" 50;
                                  mkHistoryItem "https://example.com/a" 7]) 100)
       = Some fs'
    /\ fs <= fs'.
Proof.
  exact (@one_more_visit_never_lowers plain_platform "https://example.com/"
           (mkURL "example.com" "/") (mkHistoryItem "https://example.com/b" 50)
           [mkHistoryItem "https://example.com/a" 7] 100 eq_refl).
Defined.

(** ** The content script: forms *)

Module ContentFormsFacts.
Import ContentForms.

Lemma scan_input_eq (r : FormAnalysis) (input : Input) :
  scan_input r input
  = mkFormAnalysis (hasPasswordField r || is_password input)
      (hasSensitiveFields r || is_sensitive input)
      (submitURL r) (isSecure r) (issues r).
Proof.
  unfold scan_input, is_password, is_sensitive.
  set (nm := toLowerCase (input_name input)).
  set (idn := toLowerCase (input_id input)).
  set (r0 := if String.eqb (toLowerCase (input_type input)) "password"
             then set_hasPasswordField r else r).
  assert (H0 : r0 = mkFormAnalysis
                      (hasPasswordField r
                       || String.eqb (toLowerCase (input_type input)) "password")
                      (hasSensitiveFields r) (submitURL r) (isSecure r) (issues r)).
  { unfold r0. destruct r as [a b c d e].
    destruct (String.eqb _ "password"); simpl; now rewrite ?orb_true_r, ?orb_false_r. }
  rewrite H0. clear H0 r0.
  generalize (hasPasswordField r || String.eqb (toLowerCase (input_type input)) "password").
  intros pw. generalize (hasSensitiveFields r). intros sf.
  revert sf. induction SENSITIVE_FORM_FIELDS as [|t l IH]; intros sf; simpl.
  - now rewrite orb_false_r.
  - destruct (includes nm t || includes idn t); simpl.
    + unfold set_hasSensitiveFields; simpl. rewrite IH. now rewrite orb_true_r.
    + apply IH.
Qed.

Lemma scan_inputs_eq (r : FormAnalysis) (l : list Input) :
  fold_left scan_input l r
  = mkFormAnalysis (hasPasswordField r || existsb is_password l)
      (hasSensitiveFields r || existsb is_sensitive l)
      (submitURL r) (isSecure r) (issues r).
Proof.
  revert r; induction l as [|i l IH]; intros r; simpl.
  - destruct r; simpl. now rewrite !orb_false_r.
  - rewrite IH, scan_input_eq. simpl. now rewrite !orb_assoc.
Qed.

Section WithPlatform.
Context `{P : Background.Platform}.

Lemma scan_form_eq (pageDomain : string) (r : FormAnalysis) (form : Form) :
  scan_form pageDomain r form
  = mkFormAnalysis (hasPasswordField r || existsb is_password (inputs form))
      (hasSensitiveFields r || existsb is_sensitive (inputs form))
      (if String.eqb (action form) "" then submitURL r else Some (action form))
      (isSecure r) (issues r ++ form_issue pageDomain form).
Proof.
  unfold scan_form, form_issue. rewrite scan_inputs_eq.
  destruct (String.eqb (action form) ""); simpl; [now rewrite app_nil_r |].
  destruct (Background.URL_new (action form)) as [fu|]; simpl; [| reflexivity].
  destruct (String.eqb (Background.hostname fu) pageDomain); simpl;
    [now rewrite app_nil_r | reflexivity].
Qed.

Lemma scan_forms_eq (pageDomain : string) (r : FormAnalysis) (forms : list Form) :
  fold_left (scan_form pageDomain) forms r
  = mkFormAnalysis
      (hasPasswordField r || existsb is_password (all_inputs forms))
      (hasSensitiveFields r || existsb is_sensitive (all_inputs forms))
      (fold_left (fun acc form =>
         if String.eqb (action form) "" then acc else Some (action form))
         forms (submitURL r))
      (isSecure r)
      (issues r ++ flat_map (form_issue pageDomain) forms).
Proof.
  unfold all_inputs.
  revert r; induction forms as [|f l IH]; intros r; simpl.
  - destruct r; simpl. now rewrite !orb_false_r, app_nil_r.
  - rewrite IH, scan_form_eq. simpl.
    now rewrite !existsb_app, !orb_assoc, <- app_assoc.
Qed.

(** [scanForSensitiveFormFields] in closed form. *)
Lemma scanForSensitiveFormFields_eq (location : Location) (forms : list Form) :
  scanForSensitiveFormFields location forms
  = mkFormAnalysis
      (existsb is_password (all_inputs forms))
      (existsb is_sensitive (all_inputs forms))
      (last_action forms)
      (String.eqb (protocol location) "https:")
      (flat_map (form_issue (location_hostname location)) forms
       ++ if existsb is_password (all_inputs forms)
             && negb (String.eqb (protocol location) "https:")
          then ["Password field on non-HTTPS connection"] else []).
Proof.
  unfold scanForSensitiveFormFields. rewrite scan_forms_eq. cbn.
  fold (last_action forms).
  destruct (existsb is_password (all_inputs forms)
            && negb (String.eqb (protocol location) "https:")); simpl;
    [reflexivity | now rewrite app_nil_r].
Qed.

End WithPlatform.
End ContentFormsFacts.

Module FormScanProps.
Import ContentForms ContentFormsSpec ContentFormsFacts.

(** X13. The issues of the form scan are, form by form and in document
    order, at most one issue per form (none for a form without action or
    with an action on the page's own host, the foreign host for an action
    elsewhere, the invalid-URL issue for an action that does not parse),
    followed by the password warning if it applies; hence at most one more
    than there are forms. *)
Theorem form_issues_once_per_form `{P : Platform} (location : Location)
    (forms : list Form) :
  ContentForms.issues (scanForSensitiveFormFields location forms)
  = flat_map (form_issue (location_hostname location)) forms
    ++ (if hasPasswordField (scanForSensitiveFormFields location forms)
           && negb (isSecure (scanForSensitiveFormFields location forms))
        then ["Password field on non-HTTPS connection"] else [])
  /\ (forall form : Form, (length (form_issue (location_hostname location) form) <= 1)%nat)
  /\ (forall (form : Form) (fu : URL),
        action form <> "" -> URL_new (action form) = Some fu ->
        form_issue (location_hostname location) form
        = if String.eqb (Background.hostname fu) (location_hostname location)
          then []
          else ["Form submits to different domain: " +:+ Background.hostname fu])
  /\ (length (ContentForms.issues (scanForSensitiveFormFields location forms))
      <= length forms + 1)%nat.
Proof.
  rewrite scanForSensitiveFormFields_eq. cbn [ContentForms.issues hasPasswordField isSecure].
  split; [reflexivity |].
  assert (Hone : forall form : Form,
            (length (form_issue (location_hostname location) form) <= 1)%nat).
  { intros form. unfold form_issue.
    destruct (String.eqb (action form) ""); [simpl; lia |].
    destruct (URL_new (action form)) as [fu|]; [| simpl; lia].
    destruct (String.eqb _ _); simpl; lia. }
  split; [exact Hone |]. split.
  - intros form fu Hne Hfu. unfold form_issue.
    apply String.eqb_neq in Hne. now rewrite Hne, Hfu.
  - rewrite length_app.
    assert (Hfm : (length (flat_map (form_issue (location_hostname location)) forms)
                   <= length forms)%nat).
    { induction forms as [|f l IH]; simpl; [lia |].
      rewrite length_app. specialize (Hone f). lia. }
    destruct (_ && _); simpl; lia.
Qed.

Lemma form_issues_once_per_form_witness :
  @form_issue plain_platform "example.com"
    (mkForm "https://evil.example/post" [])
  = ["Form submits to different domain: evil.example"].
Proof.
  destruct (@form_issues_once_per_form plain_platform
              (mkLocation "https:" "example.com") []) as (_ & _ & H & _).
  exact (H (mkForm "https://evil.example/post" []) (mkURL "evil.example" "/post")
           ltac:(discriminate) eq_refl).
Defined.


Lemma form_issue_initial `{P : Platform} (pageDomain : string) (forms : list Form) :
  Forall (fun x => startsWith x "P" = false) (flat_map (form_issue pageDomain) forms).
Proof.
  induction forms as [|f l IH]; simpl; [constructor |].
  apply Forall_app. split; [| exact IH]. unfold form_issue.
  destruct (String.eqb (action f) ""); [constructor |].
  destruct (URL_new (action f)) as [fu|]; [| repeat constructor].
  destruct (String.eqb _ _); repeat constructor.
Qed.

(** X14. The issue ["Password field on non-HTTPS connection"] is reported
    exactly when some input of some form has type [password] (in any
    letter case) and the protocol of the page is not [https:]. *)
Theorem password_warning_iff `{P : Platform} (location : Location)
    (forms : list Form) :
  In "Password field on non-HTTPS connection"
     (ContentForms.issues (scanForSensitiveFormFields location forms))
  <-> (exists input : Input,
         In input (all_inputs forms)
         /\ toLowerCase (input_type input) = "password")
      /\ protocol location <> "https:".
Proof.
  rewrite scanForSensitiveFormFields_eq. cbn [ContentForms.issues].
  rewrite in_app_iff.
  assert (Hpw : existsb is_password (all_inputs forms) = true
                <-> exists input : Input,
                      In input (all_inputs forms)
                      /\ toLowerCase (input_type input) = "password").
  { rewrite existsb_exists. unfold is_password.
    split; intros (i & Hi & Ht); exists i; (split; [exact Hi |]);
      now apply String.eqb_eq. }
  split.
  - intros [Hin | Hin].
    + pose proof (form_issue_initial (location_hostname location) forms) as Hall.
      rewrite List.Forall_forall in Hall. specialize (Hall _ Hin). discriminate Hall.
    + destruct (existsb is_password (all_inputs forms)) eqn:He; [| contradiction].
      destruct (String.eqb_spec (protocol location) "https:") as [Hs | Hs];
        [contradiction |].
      split; [now apply Hpw | exact Hs].
  - intros [Hex Hne]. right. apply Hpw in Hex. rewrite Hex.
    apply String.eqb_neq in Hne. rewrite Hne. now left.
Qed.

Lemma includes_trans (s t w : string) :
  includes s t = true -> includes t w = true -> includes s w = true.
Proof.
  rewrite !includes_spec. intros (p & r & ->) (p' & r' & ->).
  exists (p +:+ p'), (r' +:+ r). now rewrite !append_assoc.
Qed.

(** X15. The flags of the form scan depend on the inputs alone:
    [hasPasswordField] says that some input has type password,
    [hasSensitiveFields] that some name or id contains a fragment of the
    list, in which the fragment [password] is redundant beside [pass];
    [submitURL] is the last non-empty action; a password field once found
    stays found when more forms follow. *)
Theorem form_scan_flags `{P : Platform} (location : Location) (forms : list Form) :
  hasPasswordField (scanForSensitiveFormFields location forms)
  = existsb is_password (all_inputs forms)
  /\ hasSensitiveFields (scanForSensitiveFormFields location forms)
     = existsb is_sensitive_short (all_inputs forms)
  /\ submitURL (scanForSensitiveFormFields location forms) = last_action forms
  /\ (forall before form : _, action form <> "" ->
        last_action (before ++ [form]) = Some (action form))
  /\ (forall forms' : list Form,
        hasPasswordField (scanForSensitiveFormFields location forms) = true ->
        hasPasswordField (scanForSensitiveFormFields location (forms ++ forms')) = true).
Proof.
  rewrite !scanForSensitiveFormFields_eq.
  cbn [hasPasswordField hasSensitiveFields submitURL].
  split; [reflexivity |]. split; [| split; [reflexivity | split]].
  - induction (all_inputs forms) as [|i l IH]; [reflexivity |].
    simpl. rewrite IH. f_equal.
    unfold is_sensitive, is_sensitive_short, SENSITIVE_FORM_FIELDS.
    cbn [existsb].
    set (nm := toLowerCase (input_name i)). set (idn := toLowerCase (input_id i)).
    destruct (includes nm "password") eqn:Hn.
    + rewrite (includes_trans nm "password" "pass" Hn eq_refl). reflexivity.
    + destruct (includes idn "password") eqn:Hi; [| reflexivity].
      rewrite (includes_trans idn "password" "pass" Hi eq_refl).
      simpl. now rewrite orb_true_r.
  - intros before form Hne. unfold last_action. rewrite fold_left_app. simpl.
    apply String.eqb_neq in Hne. now rewrite Hne.
  - intros forms' H. rewrite scanForSensitiveFormFields_eq. cbn [hasPasswordField].
    unfold all_inputs in *. rewrite flat_map_app, existsb_app, H. reflexivity.
Qed.

Lemma form_scan_flags_witness :
  last_action ([mkForm "https://a.example/" []] ++ [mkForm "https://b.example/" []])
  = Some "https://b.example/".
Proof.
  destruct (@form_scan_flags plain_platform (mkLocation "https:" "example.com") [])
    as (_ & _ & _ & H & _).
  exact (H [mkForm "https://a.example/" []] (mkForm "https://b.example/" [])
           ltac:(discriminate)).
Defined.


End FormScanProps.

(** ** The content script: page content *)

Module PageContentProps.
Import Content ContentSpec ContentFacts SpecPatterns.

Lemma lower_ascii_idem (a : ascii) : lower_ascii (lower_ascii a) = lower_ascii a.
Proof. destruct a as [[] [] [] [] [] [] [] []]; reflexivity. Qed.

Lemma toLowerCase_idem (s : string) : toLowerCase (toLowerCase s) = toLowerCase s.
Proof.
  induction s as [|a s IH]; simpl; [reflexivity |].
  now rewrite lower_ascii_idem, IH.
Qed.

Lemma urgency_fold (text : string) (l : list string) (r : ContentAnalysis) :
  fold_left (fun results phrase =>
    if includes text phrase
    then set_urgency results ("Urgency language: " +:+ dquote +:+ phrase +:+ dquote)
    else results) l r
  = mkContentAnalysis (suspiciousText r) (brandImpersonation r)
      (poorSpellingGrammar r)
      (urgencyLanguage r || existsb (includes text) l)
      (issues r ++ map urgency_issue (List.filter (includes text) l)).
Proof.
  revert r; induction l as [|p l IH]; intros r; simpl.
  - destruct r; simpl. now rewrite orb_false_r, app_nil_r.
  - rewrite IH. destruct (includes text p); simpl; [| reflexivity].
    now rewrite orb_true_r, <- app_assoc.
Qed.

Lemma brand_fold (c : string -> bool) (l acc : list string) :
  fold_left (fun found brand => if c brand then found ++ [brand] else found) l acc
  = acc ++ List.filter c l.
Proof.
  revert acc; induction l as [|b l IH]; intros acc; simpl.
  - now rewrite app_nil_r.
  - rewrite IH. destruct (c b); [now rewrite <- app_assoc | reflexivity].
Qed.

Lemma collectBrands_eq (imgs : list Image) :
  collectBrands imgs = flat_map image_brands imgs.
Proof.
  unfold collectBrands, image_brands. generalize commonBrands. intros cb.
  assert (H : forall acc,
            fold_left (fun brandLogosFound img =>
              fold_left (fun brandLogosFound brand =>
                if includes (toLowerCase (alt img)) brand
                   || includes (toLowerCase (src img)) brand
                then brandLogosFound ++ [brand] else brandLogosFound)
                cb brandLogosFound) imgs acc
            = acc ++ flat_map (fun img =>
                List.filter (fun brand =>
                  includes (toLowerCase (alt img)) brand
                  || includes (toLowerCase (src img)) brand) cb) imgs).
  { induction imgs as [|i l IH]; intros acc; cbn [fold_left flat_map];
      [now rewrite app_nil_r |].
    rewrite IH.
    rewrite (brand_fold (fun brand => includes (toLowerCase (alt i)) brand
                                      || includes (toLowerCase (src i)) brand)).
    now rewrite <- app_assoc. }
  apply (H []).
Qed.

(** [analyzePageContent] in closed form. *)
Lemma analyzePageContent_eq (page : Page) :
  analyzePageContent page
  = let text := toLowerCase (innerText page) in
    let found := collectBrands (images page) in
    let flag := (0 <? length found)%nat
                && negb (brandInDomain (toLowerCase (hostname page)) found) in
    mkContentAnalysis false flag false (existsb (includes text) urgencyPhrases)
      (map urgency_issue (List.filter (includes text) urgencyPhrases)
       ++ if flag then ["Potential impersonation of: " +:+ join ", " found] else []).
Proof.
  unfold analyzePageContent. rewrite urgency_fold. cbv zeta.
  cbn [suspiciousText brandImpersonation poorSpellingGrammar urgencyLanguage
       issues orb app].
  destruct (0 <? length (collectBrands (images page)))%nat; cbn [andb];
    [| now rewrite app_nil_r].
  destruct (brandInDomain _ _); cbn [negb]; [now rewrite app_nil_r | reflexivity].
Qed.

(** X16. [analyzePageContent] never sets [suspiciousText] or
    [poorSpellingGrammar]; [urgencyLanguage] is set exactly when the
    lower-cased text contains one of the urgency phrases; the issues are
    one per contained phrase, in the order of the list, followed by at most
    one impersonation issue, present exactly when [brandImpersonation] is
    set; there are never more than 15; a page without images is never
    marked as an impersonation. *)
Theorem content_analysis_shape (page : Page) :
  suspiciousText (analyzePageContent page) = false
  /\ poorSpellingGrammar (analyzePageContent page) = false
  /\ (urgencyLanguage (analyzePageContent page) = true
      <-> exists phrase, In phrase urgencyPhrases
            /\ includes (toLowerCase (innerText page)) phrase = true)
  /\ (exists rest,
        issues (analyzePageContent page)
        = map urgency_issue
            (List.filter (includes (toLowerCase (innerText page))) urgencyPhrases)
          ++ rest
        /\ (length rest <= 1)%nat
        /\ (rest <> [] <-> brandImpersonation (analyzePageContent page) = true))
  /\ (length (issues (analyzePageContent page)) <= 15)%nat
  /\ (images page = [] -> brandImpersonation (analyzePageContent page) = false).
Proof.
  rewrite analyzePageContent_eq. cbv zeta.
  cbn [suspiciousText poorSpellingGrammar urgencyLanguage issues brandImpersonation].
  split; [reflexivity |]. split; [reflexivity |]. split; [apply existsb_exists |].
  split; [| split].
  - eexists. split; [reflexivity |].
    match goal with |- context [if ?b then _ else _] => destruct b end;
      cbn [length]; (split; [lia |]); split; congruence.
  - rewrite length_app, List.length_map.
    pose proof (List.filter_length_le
                  (includes (toLowerCase (innerText page))) urgencyPhrases) as Hf.
    change (length urgencyPhrases) with 14%nat in Hf.
    match goal with |- context [if ?b then _ else _] => destruct b end;
      cbn [length]; lia.
  - intros ->. reflexivity.
Qed.

Lemma content_analysis_shape_witness :
  brandImpersonation (analyzePageContent (mkPage "Act now!" [] "example.com")) = false.
Proof.
  destruct (content_analysis_shape (mkPage "Act now!" [] "example.com"))
    as (_ & _ & _ & _ & _ & H).
  apply H. reflexivity.
Defined.


Lemma image_brands_lower (img : Image) :
  image_brands (mkImage (toLowerCase (alt img)) (toLowerCase (src img)))
  = image_brands img.
Proof. unfold image_brands. cbn [alt src]. now rewrite !toLowerCase_idem. Qed.

(** X17. The content analysis ignores letter case: putting the text, the
    image attributes and the host name in lower case beforehand changes
    nothing. *)
Theorem content_analysis_ignores_case (page : Page) :
  analyzePageContent (lower_page page) = analyzePageContent page.
Proof.
  rewrite !analyzePageContent_eq. unfold lower_page. cbn [innerText images hostname].
  rewrite !toLowerCase_idem.
  replace (collectBrands (map _ (images page))) with (collectBrands (images page));
    [reflexivity |].
  rewrite !collectBrands_eq.
  induction (images page) as [|i l IH]; [reflexivity |].
  cbn [map flat_map]. now rewrite image_brands_lower, IH.
Qed.

Lemma collectBrands_members (imgs : list Image) :
  Forall (fun brand => In brand commonBrands) (collectBrands imgs).
Proof.
  rewrite collectBrands_eq.
  apply List.Forall_forall. intros b Hb. apply in_flat_map in Hb as (i & _ & Hb).
  unfold image_brands in Hb. now apply List.filter_In in Hb.
Qed.

(** X18. The collected brands of two runs of images are those of the first
    followed by those of the second; every collected brand is one of the
    eleven of the list, so there are at most eleven per image; and a listed
    brand contained in the lower-cased [alt] or [src] of an image is
    collected. *)
Theorem collected_brands (imgs imgs' : list Image) :
  collectBrands (imgs ++ imgs') = collectBrands imgs ++ collectBrands imgs'
  /\ Forall (fun brand => In brand commonBrands) (collectBrands imgs)
  /\ (length (collectBrands imgs) <= 11 * length imgs)%nat
  /\ (forall img brand,
        In img imgs -> In brand commonBrands ->
        includes (toLowerCase (alt img)) brand = true
        \/ includes (toLowerCase (src img)) brand = true ->
        In brand (collectBrands imgs)).
Proof.
  split; [rewrite !collectBrands_eq; apply flat_map_app |].
  split; [apply collectBrands_members |]. rewrite !collectBrands_eq. split.
  - induction imgs as [|i l IH]; cbn [flat_map length]; [lia |].
    rewrite length_app.
    pose proof (List.filter_length_le
                  (fun brand => includes (toLowerCase (alt i)) brand
                                || includes (toLowerCase (src i)) brand)
                  commonBrands) as Hf.
    change (length commonBrands) with 11%nat in Hf. unfold image_brands in *. lia.
  - intros img brand Hi Hb Hc. apply in_flat_map. exists img. split; [exact Hi |].
    unfold image_brands. apply List.filter_In. split; [exact Hb |].
    apply orb_true_iff. exact Hc.
Qed.

Lemma collected_brands_witness :
  In "paypal" (collectBrands [mkImage "PayPal logo" "/img/1.png"]).
Proof.
  destruct (collected_brands [mkImage "PayPal logo" "/img/1.png"] [])
    as (_ & _ & _ & H).
  apply (H (mkImage "PayPal logo" "/img/1.png") "paypal").
  - now left.
  - now left.
  - left. reflexivity.
Defined.


Lemma includes_free (c : ascii) (s t : string) :
  free_of c s = true -> free_of c t = false -> includes s t = false.
Proof.
  unfold free_of. intros Hs Ht.
  destruct (includes s t) eqn:Hi; [| reflexivity].
  apply includes_spec in Hi as (x & y & ->).
  rewrite !all_chars_append in Hs.
  apply andb_true_iff in Hs as [_ Hs]. apply andb_true_iff in Hs as [Hs _].
  congruence.
Qed.

Lemma existsb_ext_In {A : Type} (f g : A -> bool) (l : list A) :
  (forall x, In x l -> f x = g x) -> existsb f l = existsb g l.
Proof.
  induction l as [|x l IH]; intros H; simpl; [reflexivity |].
  rewrite (H x) by now left. rewrite IH; [reflexivity |].
  intros y Hy. apply H. now right.
Qed.

(** X19. On a host name without spaces, the impersonation flag is raised
    exactly when some brand is collected and no collected brand other than
    [bank of america] has its space-stripped name in the host: for every
    other brand the code tests the space-stripped name, and
    [bank of america] never counts as found in the host. *)
Theorem impersonation_flag_on_hosts (page : Page)
    (Hhost : free_of " " (toLowerCase (hostname page)) = true) :
  brandImpersonation (analyzePageContent page)
  = (0 <? length (collectBrands (images page)))%nat
    && negb (existsb (fun brand =>
               negb (String.eqb brand "bank of america")
               && brand_in_host (toLowerCase (hostname page)) brand)
             (collectBrands (images page))).
Proof.
  rewrite analyzePageContent_eq. cbv zeta. cbn [brandImpersonation].
  rewrite brandInDomain_existsb. f_equal. f_equal.
  apply existsb_ext_In. intros b Hb.
  pose proof (collectBrands_members (images page)) as Hall.
  rewrite List.Forall_forall in Hall. specialize (Hall b Hb).
  unfold commonBrands, brand_in_host in *. simpl in Hall.
  repeat (destruct Hall as [<- | Hall]; [try reflexivity |]); [| contradiction].
  cbn [String.eqb Ascii.eqb negb andb].
  apply includes_free with (c := " "%char); [exact Hhost | reflexivity].
Qed.

Lemma impersonation_flag_on_hosts_witness :
  brandImpersonation
    (analyzePageContent
       (mkPage "" [mkImage "Bank of America" "/logo.png"; mkImage "Chase" ""]
          "www.bankofamerica.com")) = true.
Proof.
  rewrite (impersonation_flag_on_hosts
             (mkPage "" [mkImage "Bank of America" "/logo.png"; mkImage "Chase" ""]
                "www.bankofamerica.com") eq_refl).
  vm_compute. reflexivity.
Defined.

End PageContentProps.

(** ** The warning banner *)

Module BannerProps.
Import Messaging ContentBanner.

Lemma RiskLevel_eqb_eq (a b : RiskLevel) : RiskLevel_eqb a b = true <-> a = b.
Proof. destruct a, b; simpl; split; congruence. Qed.

Lemma injectWarningBanner_eq (analysis : AnalysisData) (st : PageState) :
  injectWarningBanner analysis st
  = if negb (warningDisplayed st)
       && (RiskLevel_eqb (data_riskLevel analysis) MEDIUM
           || RiskLevel_eqb (data_riskLevel analysis) HIGH)
    then mkPageState true (banner_of analysis :: body st)
    else st.
Proof.
  unfold injectWarningBanner, banner_of. destruct (warningDisplayed st); [reflexivity |].
  destruct (data_riskLevel analysis); reflexivity.
Qed.

Lemma onMessage_eq (message : Message) (st : PageState) :
  (onMessage message st).1
  = if negb (warningDisplayed st) && warns message
    then mkPageState true (banner_of (msg_data message) :: body st)
    else st.
Proof.
  unfold onMessage, warns.
  destruct (String.eqb (msg_action message) "analysisResult"); cbn [fst andb];
    [| now rewrite andb_false_r].
  destruct (RiskLevel_eqb _ MEDIUM || RiskLevel_eqb _ HIGH) eqn:Hw.
  - rewrite injectWarningBanner_eq, Hw. reflexivity.
  - now rewrite andb_false_r.
Qed.

(** Once the flag is set, the banners can only go away. *)
Lemma run_displayed (events : list Event) (st : PageState) :
  warningDisplayed st = true ->
  warningDisplayed (run events st) = true
  /\ sublist (body (run events st)) (body st).
Proof.
  revert st; induction events as [|e l IH]; intros st Hd; [now split |].
  cbn [run fold_left].
  assert (Hs : warningDisplayed (step st e) = true /\ sublist (body (step st e)) (body st)).
  { destruct e as [m | i]; cbn [step].
    - rewrite onMessage_eq, Hd. now split.
    - unfold closeClicked. cbn. split; [exact Hd | apply sublist_delete]. }
  destruct Hs as [Hd' Hsub]. destruct (IH _ Hd') as [H1 H2].
  split; [exact H1 | now transitivity (body (step st e))].
Qed.

Lemma step_ok (st : PageState) (e : Event) : page_ok st -> page_ok (step st e).
Proof.
  intros Hok. pose proof Hok as (H1 & H2 & H3). destruct e as [m | i]; cbn [step].
  - rewrite onMessage_eq.
    destruct (warningDisplayed st) eqn:Hd; cbn [negb andb]; [exact Hok |].
    destruct (warns m); [| exact Hok].
    rewrite (H1 eq_refl). split; [discriminate |]. split; [simpl; lia |].
    constructor; [| constructor]. unfold banner_ok, banner_of. cbn.
    split; [reflexivity |]. destruct (data_riskLevel (msg_data m)); auto.
  - unfold closeClicked. split; [| split]; cbn.
    + intros Hd. now rewrite (H1 Hd).
    + pose proof (sublist_length _ _ (sublist_delete (body st) i)). lia.
    + rewrite List.Forall_forall in H3 |- *. intros b Hb. apply H3.
      apply list_elem_of_In in Hb. apply list_elem_of_In.
      eapply elem_of_sublist; [exact Hb | apply sublist_delete].
Qed.

Lemma run_ok (events : list Event) (st : PageState) :
  page_ok st -> page_ok (run events st).
Proof.
  revert st; induction events as [|e l IH]; intros st H; [exact H |].
  cbn [run fold_left]. apply IH. now apply step_ok.
Qed.

Lemma initial_ok : page_ok initial.
Proof. repeat split; [simpl; lia | constructor]. Qed.

(** X20. Whatever messages arrive and whatever close buttons are clicked,
    the page never holds more than one warning banner; a banner is there
    only if [warningDisplayed] is set; and every banner has the id
    [phishguard-warning] and one of the two warning colours. *)
Theorem at_most_one_banner (events : list Event) :
  (length (body (run events initial)) <= 1)%nat
  /\ (body (run events initial) <> [] -> warningDisplayed (run events initial) = true)
  /\ Forall (fun b => banner_id b = "phishguard-warning"
                      /\ (backgroundColor b = "#ff3b30" \/ backgroundColor b = "#ff9500"))
       (body (run events initial)).
Proof.
  destruct (run_ok events initial initial_ok) as (H1 & H2 & H3).
  split; [exact H2 |]. split; [| exact H3].
  intros Hne. destruct (warningDisplayed (run events initial)) eqn:Hd; [reflexivity |].
  now rewrite (H1 eq_refl) in Hne.
Qed.

Lemma at_most_one_banner_witness :
  warningDisplayed
    (run [Received (mkMessage "analysisResult" (mkAnalysisData (Some 140) [] HIGH None))]
       initial) = true.
Proof.
  destruct (at_most_one_banner
              [Received (mkMessage "analysisResult"
                           (mkAnalysisData (Some 140) [] HIGH None))])
    as (_ & H & _).
  apply H. intros Hb. vm_compute in Hb. discriminate Hb.
Defined.


(** X21. Once a warning has been shown and its banner closed, no later
    message brings a banner back: [warningDisplayed] is never reset. *)
Theorem closed_banner_stays_closed (before after : list Event) (message : Message)
    (Hwarn : warns message = true) :
  body (run after (closeClicked 0 (step (run before initial) (Received message)))) = [].
Proof.
  set (st := run before initial).
  destruct (run_ok before initial initial_ok) as (H1 & H2 & _).
  fold st in H1, H2.
  assert (Hd : warningDisplayed (step st (Received message)) = true
               /\ (length (body (step st (Received message))) <= 1)%nat).
  { cbn [step]. rewrite onMessage_eq, Hwarn, andb_true_r.
    destruct (warningDisplayed st) eqn:Hs; cbn [negb]; [now split |].
    rewrite (H1 eq_refl). split; [reflexivity | simpl; lia]. }
  destruct Hd as [Hd Hl].
  assert (Hc : body (closeClicked 0 (step st (Received message))) = []).
  { unfold closeClicked. cbn [body].
    destruct (body (step st (Received message))) as [|b [|b' l]];
      [reflexivity | reflexivity | simpl in Hl; lia]. }
  destruct (run_displayed after (closeClicked 0 (step st (Received message))) Hd)
    as [_ Hsub].
  rewrite Hc in Hsub. now apply sublist_nil_r in Hsub.
Qed.

Lemma closed_banner_stays_closed_witness :
  body (run [Received (mkMessage "analysisResult"
                         (mkAnalysisData (Some 140) [] HIGH None))]
          (closeClicked 0
             (step (run [] initial)
                (Received (mkMessage "analysisResult"
                             (mkAnalysisData (Some 65) [] MEDIUM None)))))) = [].
Proof.
  exact (closed_banner_stays_closed []
           [Received (mkMessage "analysisResult" (mkAnalysisData (Some 140) [] HIGH None))]
           (mkMessage "analysisResult" (mkAnalysisData (Some 65) [] MEDIUM None))
           eq_refl).
Defined.

Lemma run_received_displayed (msgs : list Message) (st : PageState) :
  warningDisplayed st = true -> run (map Received msgs) st = st.
Proof.
  intros Hd. induction msgs as [|m l IH]; [reflexivity |].
  cbn [map run fold_left step]. rewrite onMessage_eq, Hd. exact IH.
Qed.

(** X22. Of the messages a page receives, the first [analysisResult] with
    level MEDIUM or HIGH decides the banner, later ones change nothing, and
    without such a message nothing is shown; the banner is red exactly for
    HIGH and orange for MEDIUM. *)
Theorem first_warning_wins (msgs : list Message) :
  run (map Received msgs) initial
  = match find warns msgs with
    | Some m => mkPageState true [banner_of (msg_data m)]
    | None => initial
    end
  /\ (forall m, find warns msgs = Some m ->
        msg_action m = "analysisResult"
        /\ (data_riskLevel (msg_data m) = MEDIUM \/ data_riskLevel (msg_data m) = HIGH)
        /\ (backgroundColor (banner_of (msg_data m)) = "#ff3b30"
            <-> data_riskLevel (msg_data m) = HIGH)).
Proof.
  split.
  - assert (H : forall st, warningDisplayed st = false ->
              run (map Received msgs) st
              = match find warns msgs with
                | Some m => mkPageState true (banner_of (msg_data m) :: body st)
                | None => st
                end).
    { induction msgs as [|m l IH]; intros st Hd; [reflexivity |].
      cbn [map run fold_left find step]. rewrite onMessage_eq, Hd. cbn [negb andb].
      destruct (warns m); [| apply (IH st Hd)].
      now apply run_received_displayed. }
    apply (H initial eq_refl).
  - intros m Hm. apply find_some in Hm as [_ Hw]. unfold warns in Hw.
    apply andb_true_iff in Hw as [Ha Hl]. apply String.eqb_eq in Ha.
    split; [exact Ha |]. unfold banner_of. cbn.
    destruct (data_riskLevel (msg_data m)); try discriminate; split; auto;
      split; congruence.
Qed.

Lemma first_warning_wins_witness :
  backgroundColor
    (banner_of (msg_data (mkMessage "analysisResult"
                            (mkAnalysisData (Some 65) [] MEDIUM None))))
  = "#ff9500".
Proof.
  destruct (first_warning_wins
              [mkMessage "analysisResult" (mkAnalysisData (Some 20) [] SAFE None);
               mkMessage "analysisResult" (mkAnalysisData (Some 65) [] MEDIUM None)])
    as [_ H].
  destruct (H _ eq_refl) as (_ & _ & _). reflexivity.
Defined.


End BannerProps.

(** ** Navigation, end to end *)

Module NavigationProps.
Import Messaging BackgroundEvents ContentBanner BannerProps.




(** X24. End to end: for a main-frame navigation to a page that is not
    the browser's own and counts as a first visit, the message the
    background script sends makes a content script that has shown nothing
    yet display exactly one banner, the red one, and the stored analysis
    has level HIGH. *)
Theorem first_visit_shows_red_banner `{P : Platform} (details : Details)
    (search : option (list HistoryItem)) (now stamp : Z)
    (σ : store) (storage : gmap string StoredEntry)
    (Hnav : skipped details = false)
    (Hfirst : firstVisit (checkBrowserHistory (details_url details) search now) = true) :
  exists (message : Message) (banner : Banner),
    out_message (onCompleted details search now stamp σ storage)
    = Some (tabId details, message)
    /\ data_riskLevel (msg_data message) = HIGH
    /\ run [Received message] initial = mkPageState true [banner]
    /\ backgroundColor banner = "#ff3b30"
    /\ (exists entry,
          out_storage (onCompleted details search now stamp σ storage)
            !! details_url details = Some entry
          /\ data_riskLevel (entry_analysis entry) = HIGH).
Proof.
  unfold skipped in Hnav. apply orb_false_iff in Hnav as [H H3].
  apply orb_false_iff in H as [H1 H2].
  unfold onCompleted. rewrite H1, H2, H3. cbn [orb].
  destruct (first_visit_run (details_url details) search now σ Hfirst)
    as (a & σ' & z & Hrun & Hs & Hz & Hl).
  rewrite Hrun. cbn [out_message out_storage].
  eexists _, (banner_of (serialize a σ')). split; [reflexivity |].
  cbn [msg_data]. unfold serialize at 1. cbn [data_riskLevel].
  split; [exact Hl |]. split.
  - cbn [run fold_left step]. rewrite onMessage_eq. unfold warns. cbn.
    now rewrite Hl.
  - split; [unfold banner_of, serialize; cbn; now rewrite Hl |].
    eexists. split; [apply lookup_insert_eq |]. cbn. exact Hl.
Qed.

Lemma first_visit_shows_red_banner_witness :
  exists (message : Message),
    out_message (@onCompleted plain_platform (mkDetails 0 7 "https://example.com/")
                   (Some []) 1000 1001 [] ∅)
    = Some (7, message)
    /\ data_riskLevel (msg_data message) = HIGH.
Proof.
  destruct (@first_visit_shows_red_banner plain_platform
              (mkDetails 0 7 "https://example.com/") (Some []) 1000 1001 [] ∅
              eq_refl eq_refl) as (m & b & Hm & Hl & _).
  exists m. split; [exact Hm | exact Hl].
Defined.

End NavigationProps.

(** ** The popup *)

Module PopupProps.
Import Messaging Popup.

Lemma displayAnalysisResults_eq (analysis : AnalysisData) (d : Dom) :
  displayAnalysisResults analysis d
  = mkDom true false (detailedResults_hidden d)
      ("Risk Level: " +:+ level_name (data_riskLevel analysis))
      ("risk-level " +:+ toLowerCase (level_name (data_riskLevel analysis)))
      ("Score: " +:+ score_text (data_score analysis))
      (summary_of (data_riskLevel analysis))
      (if (0 <? length (data_issues analysis))%nat
       then data_issues analysis else issuesList_items d)
      (negb (0 <? length (data_issues analysis))%nat).
Proof.
  unfold displayAnalysisResults, showLoading. cbv zeta.
  destruct (0 <? length (data_issues analysis))%nat; reflexivity.
Qed.

Lemma summary_of_inj (a b : RiskLevel) : summary_of a = summary_of b -> a = b.
Proof. destruct a, b; intros H; try reflexivity; discriminate H. Qed.

(** X25. After [displayAnalysisResults], whatever the popup showed before:
    the visible issues are exactly those of the analysis (an empty list is
    hidden, stale items are never visible), the loading pane is hidden and
    the results pane shown, the score line carries the score, displaying the
    same analysis again changes nothing, the summary text tells the four
    levels apart, and a later error hides the issues. *)
Theorem popup_shows_latest_analysis (analysis : AnalysisData) (d : Dom) :
  visible_issues (displayAnalysisResults analysis d) = data_issues analysis
  /\ loading_hidden (displayAnalysisResults analysis d) = true
  /\ results_hidden (displayAnalysisResults analysis d) = false
  /\ riskScore_textContent (displayAnalysisResults analysis d)
     = "Score: " +:+ score_text (data_score analysis)
  /\ displayAnalysisResults analysis (displayAnalysisResults analysis d)
     = displayAnalysisResults analysis d
  /\ (forall analysis' : AnalysisData,
        summaryText_textContent (displayAnalysisResults analysis d)
        = summaryText_textContent (displayAnalysisResults analysis' d) ->
        data_riskLevel analysis = data_riskLevel analysis')
  /\ visible_issues (showError (displayAnalysisResults analysis d)) = [].
Proof.
  rewrite !displayAnalysisResults_eq.
  cbn [loading_hidden results_hidden riskScore_textContent summaryText_textContent
       detailedResults_hidden issuesList_items issuesList_hidden].
  split; [| split; [reflexivity | split; [reflexivity | split; [reflexivity | split]]]].
  - unfold visible_issues. cbn [issuesList_hidden issuesList_items].
    destruct (data_issues analysis); reflexivity.
  - f_equal. destruct (0 <? length (data_issues analysis))%nat; reflexivity.
  - split.
    + intros a'. rewrite displayAnalysisResults_eq. cbn [summaryText_textContent].
      apply summary_of_inj.
    + reflexivity.
Qed.

Lemma popup_shows_latest_analysis_witness :
  data_riskLevel (mkAnalysisData (Some 65) ["a"] MEDIUM None)
  = data_riskLevel (mkAnalysisData (Some 70) [] MEDIUM None).
Proof.
  destruct (popup_shows_latest_analysis (mkAnalysisData (Some 65) ["a"] MEDIUM None)
              (mkDom false true true "" "" "" "" [] true))
    as (_ & _ & _ & _ & _ & H & _).
  apply H. reflexivity.
Defined.


End PopupProps.
